(** * Parametric labelled bushings: the part construction of [cad/bushing.py]

    A shallow embedding of [BushingSpec], [make_bushing] and
    [make_many_bushings].  The geometry engine (build123d) is not part of the
    repository: a part is represented by the term of engine calls the code
    makes, and what the outside answers (bounding boxes, centres, the class
    of a value, whether a call raises) is taken as a parameter, the record
    [Kernel].  A Python [str] is represented by its UTF-8 encoding, as the
    literals of this file are; [py_len] counts its code points.

    Python's [float] arithmetic is kept behind the interface [PyNumber], so
    every statement about the structure of a part holds for exact rationals
    and for IEEE binary64 alike; both instances are given and both compute.
    Statements about the order of numbers are proved in binary64, from the
    semantics that [SpecFloat] gives to comparison and addition. *)

From Stdlib Require Import ZArith QArith Qminmax String List Bool Lia Lqa.
From Stdlib Require Import PrimFloat Uint63 DecimalString.
From Stdlib Require Import Ascii DecimalNat FloatAxioms FloatOps SpecFloat.
Import ListNotations.

Set Implicit Arguments.

(** ** Numbers *)

(** The operations [make_bushing] and the driver apply to the numeric fields
    of a spec: literals, [+], [-], [*], [/], unary [-], [<] and [<=]. *)
Class PyNumber (num : Type) : Type := {
  lit : Q -> num;
  fadd : num -> num -> num;
  fsub : num -> num -> num;
  fmul : num -> num -> num;
  fdiv : num -> num -> num;
  fneg : num -> num;
  fltb : num -> num -> bool;
  fleb : num -> num -> bool
}.

(** [a > b] and [a >= b] are the reflected comparisons. *)
Definition fgtb {num} `{PyNumber num} (a b : num) : bool := fltb b a.
Definition fgeb {num} `{PyNumber num} (a b : num) : bool := fleb b a.

(** Python's builtin [min(a, b)] and [max(a, b)]: the first argument is kept
    unless the second is strictly smaller (strictly larger). *)
Definition pymin {num} `{PyNumber num} (a b : num) : num :=
  if fltb b a then b else a.
Definition pymax {num} `{PyNumber num} (a b : num) : num :=
  if fgtb b a then b else a.

(** Exact arithmetic. *)
#[export] Instance Q_number : PyNumber Q := {|
  lit := fun q => q;
  fadd := Qplus;
  fsub := Qminus;
  fmul := Qmult;
  fdiv := Qdiv;
  fneg := Qopp;
  fltb := fun a b => negb (Qle_bool b a);
  fleb := Qle_bool
|}.

(** IEEE 754 binary64, the arithmetic of CPython's [float].  A literal
    [n/d] with small [n] and [d] is the correctly rounded quotient. *)
Definition float_of_Z (z : Z) : float :=
  match z with
  | Z0 => PrimFloat.zero
  | Zpos _ => PrimFloat.of_uint63 (Uint63.of_Z z)
  | Zneg p => PrimFloat.opp (PrimFloat.of_uint63 (Uint63.of_Z (Zpos p)))
  end.

#[export] Instance binary64_number : PyNumber float := {|
  lit := fun q => PrimFloat.div (float_of_Z (Qnum q)) (float_of_Z (Zpos (Qden q)));
  fadd := PrimFloat.add;
  fsub := PrimFloat.sub;
  fmul := PrimFloat.mul;
  fdiv := PrimFloat.div;
  fneg := PrimFloat.opp;
  fltb := PrimFloat.ltb;
  fleb := PrimFloat.leb
|}.

(** ** Errors *)

Inductive result (E A : Type) : Type :=
| Ok (a : A)
| Err (e : E).
Arguments Ok {E A} a.
Arguments Err {E A} e.

Definition bind {E A B} (r : result E A) (f : A -> result E B) : result E B :=
  match r with
  | Ok a => f a
  | Err e => Err e
  end.

Notation "x <- r ;; k" := (bind r (fun x => k))
  (at level 61, r at next level, right associativity).

Section Bushing.

Context {num : Type} `{PyNumber num}.

Local Notation "a / b" := (fdiv a b).
Local Notation "a + b" := (fadd a b).
Local Notation "a * b" := (fmul a b).
Local Notation "a <? b" := (fltb a b).
Local Notation "a >? b" := (fgtb a b) (at level 70).

(** ** The specification record *)

Record BushingSpec : Type := {
  bushing_id : num;
  bushing_od : num;
  bushing_length : num;
  bushing_each_time : Z;
  flag_thickness : num;
  flag_length : num;
  flag_height : num;
  text_font_size : num;
  text_thickness : num;
  flag_stem_length_radial : num;
  flag_stem_od : num;
  text_top : string;
  text_bottom : string
}.

(** ** Terms of the geometry engine *)

Inductive Align : Type := MIN | CENTER | MAX.
Inductive Axis : Type := AxisX | AxisY | AxisZ.
Inductive Plane : Type := PlaneXY | PlaneXZ | PlaneYZ.

Record Vector : Type := { X : num; Y : num; Z : num }.

(** 2D objects: [bd.Text(...)], [sketch.translate((x, y))] and
    [plane * sketch]. *)
Inductive Sketch : Type :=
| Text (txt : string) (font_size : num) (align : Align * Align)
| SketchTranslate (v : num * num) (s : Sketch)
| OnPlane (pl : Plane) (s : Sketch).

(** 3D objects: the primitives, [bd.extrude], [.rotate], [.translate], and
    the results of [+] and [-]. *)
Inductive Part : Type :=
| EmptyPart
| Cylinder (radius height : num) (align : Align * Align * Align)
| Cone (bottom_radius top_radius height : num) (align : Align * Align * Align)
| Box (length width height : num) (align : Align * Align * Align)
| Extrude (to_extrude : Sketch) (amount : num)
| Rotate (axis : Axis) (angle : num) (p : Part)
| Translate (v : num * num * num) (p : Part)
| Fuse (p q : Part)
| Cut (p q : Part).

(** ** Errors raised by the code *)

(** A formatted message: literal text and interpolated values. *)
Inductive piece : Type :=
| Lit (s : string)
| Val (x : num)
| Repr (p : Part).

(** [Raised] stands for whatever exception a call of the engine, of the
    viewer or of the file system lets escape. *)
Inductive exn : Type :=
| AssertionError (msg : list piece)
| TypeError (msg : string)
| UnboundLocalError (name : string)
| Raised (what : string).

(** ** The outside *)

(** The calls the code makes outside itself: an engine call that returns a
    3D or a 2D value (named by the term of the value), the two measurements,
    [show], [bd.export_stl], the reading of the parts list
    ([json.loads] of [read_text]) and [mkdir]. *)
Inductive call : Type :=
| NewPart (t : Part)
| NewSketch (t : Sketch)
| BoundingBoxOf (t : Sketch)
| CenterOf (t : Part)
| ShowPart (t : Part)
| ExportStlFile (t : Part) (file_name : string)
| ReadList
| MakeDirs.

Record BoundBox : Type := { bb_min : Vector; bb_max : Vector; bb_size : Vector }.

(** What the outside answers: the results of [.bounding_box()] and
    [.center()], the class tests
    [isinstance(part, bd.Part | bd.Compound | bd.Solid)] of the driver and
    [isinstance(text_sketch, bd.Sketch)] of [make_bushing], and for every
    call whether it raises. *)
Record Kernel : Type := {
  bounding_box : Sketch -> BoundBox;
  center : Part -> Vector;
  is_part_compound_or_solid : Part -> bool;
  is_sketch : Sketch -> bool;
  raises : call -> option string
}.

(** A call that returns, or raises what the outside says. *)
Definition external (k : Kernel) (c : call) : result exn unit :=
  match raises k c with
  | Some what => Err (Raised what)
  | None => Ok tt
  end.

(** [for x in xs: s = f(s, x)], stopped by the first exception. *)
Fixpoint for_each {S A : Type} (f : S -> A -> result exn S) (xs : list A)
    (s : S) : result exn S :=
  match xs with
  | [] => Ok s
  | x :: rest => s' <- f s x ;; for_each f rest s'
  end.

(** [BushingSpec.__post_init__]: the two assertions, in order. *)
Definition post_init (self : BushingSpec) : result exn unit :=
  if negb (bushing_od self >? bushing_id self) then
    Err (AssertionError
           [Lit "OD "; Val (bushing_od self); Lit " < ID "; Val (bushing_id self)])
  else if negb (flag_stem_od self <? bushing_od self) then
    Err (AssertionError
           [Lit "Flag stem OD "; Val (flag_stem_od self); Lit " > ";
            Lit "Bushing OD "; Val (bushing_od self)])
  else Ok tt.

(** [p += q] and [p -= q] rebind [p] to a new value. *)
Definition iadd (p q : Part) : Part := Fuse p q.
Definition isub (p q : Part) : Part := Cut p q.

(** [len(s)]: the number of code points of [s], that is the number of bytes
    of its UTF-8 encoding that are not continuation bytes [10xxxxxx]. *)
Definition is_continuation (c : ascii) : bool :=
  match c with
  | Ascii _ _ _ _ _ _ false true => true
  | _ => false
  end.

Fixpoint py_len (s : string) : nat :=
  match s with
  | EmptyString => 0
  | String c rest =>
      if is_continuation c then py_len rest else S (py_len rest)
  end.

(** ** [make_bushing], block by block *)

Section MakeBushing.

Variable k : Kernel.
Variable base_spec : BushingSpec.

(** Lines 51-55. *)
Definition sleeve : Part :=
  Cylinder (bushing_od base_spec / lit 2) (bushing_length base_spec)
           (CENTER, CENTER, MIN).

(** Lines 57-62: which label receives the connector. *)
Definition label_layout (top bottom : string) : string * string :=
  if (py_len top <=? py_len bottom)%nat
  then ((top ++ " to")%string, bottom)
  else (top, ("to " ++ bottom)%string).

Definition effective_text_top : string :=
  fst (label_layout (text_top base_spec) (text_bottom base_spec)).
Definition effective_text_bottom : string :=
  snd (label_layout (text_top base_spec) (text_bottom base_spec)).

(** Lines 64-73. *)
Definition text_2d_top : Sketch :=
  SketchTranslate (lit 0, lit 0.6)
    (Text effective_text_top (text_font_size base_spec) (CENTER, MIN)).
Definition text_2d_bottom : Sketch :=
  SketchTranslate (lit 0, lit (-0.6))
    (Text effective_text_bottom (text_font_size base_spec) (CENTER, MAX)).

(** Lines 75-79. *)
Definition max_text_width : num :=
  pymax (X (bb_size (bounding_box k text_2d_top)))
        (X (bb_size (bounding_box k text_2d_bottom))).

Definition computed_flag_length : num := max_text_width + lit 2.

(** Lines 82-101: the flag stem. *)
Definition flag_stem : Part :=
  Translate
    (lit 0, lit 0,
     pymin (bushing_length base_spec / lit 2) (flag_height base_spec / lit 2))
    (Rotate AxisY (lit 90)
       (Cone (pymin (bushing_od base_spec / lit 2)
                    (bushing_length base_spec / lit 2))
             (flag_thickness base_spec / lit 2)
             (flag_stem_length_radial base_spec + bushing_od base_spec / lit 2)
             (CENTER, CENTER, MIN))).

(** Lines 104-117: the flag body. *)
Definition flag_body_box : Part :=
  Translate
    (flag_stem_length_radial base_spec + bushing_od base_spec / lit 2,
     lit 0, lit 0)
    (Box computed_flag_length (flag_thickness base_spec)
         (flag_height base_spec) (MIN, CENTER, MIN)).

(** Lines 121-128: the relief of the front-side loop, the value that is
    added to [p]. *)
Definition front_relief (text_2d : Sketch) : Part :=
  let text_sketch :=
    OnPlane PlaneXZ
      (SketchTranslate (X (center k flag_body_box), Z (center k flag_body_box))
         text_2d) in
  Extrude text_sketch
    (text_thickness base_spec + flag_thickness base_spec / lit 2).

(** Lines 132-139: the relief of the back-side loop. *)
Definition back_relief (text_2d : Sketch) : Part :=
  let text_sketch :=
    OnPlane PlaneXZ
      (SketchTranslate
         (fneg (X (center k flag_body_box)), Z (center k flag_body_box))
         text_2d) in
  Rotate AxisZ (lit 180)
    (Extrude text_sketch
       (text_thickness base_spec + flag_thickness base_spec / lit 2)).

(** Lines 141-145. *)
Definition bore : Part :=
  Cylinder (bushing_id base_spec / lit 2) (bushing_length base_spec)
           (CENTER, CENTER, MIN).

(** Lines 121-128: one iteration of the front-side loop, call by call:
    [.center()] twice, [.translate], [Plane.XZ * ...], the assertion that
    the result is a [bd.Sketch], [bd.extrude] and [p += ...]. *)
Definition front_step (p : Part) (text_2d : Sketch) : result exn Part :=
  _ <- external k (CenterOf flag_body_box) ;;
  _ <- external k (CenterOf flag_body_box) ;;
  let moved :=
    SketchTranslate (X (center k flag_body_box), Z (center k flag_body_box))
      text_2d in
  _ <- external k (NewSketch moved) ;;
  let text_sketch := OnPlane PlaneXZ moved in
  _ <- external k (NewSketch text_sketch) ;;
  if negb (is_sketch k text_sketch) then Err (AssertionError []) else
  let relief :=
    Extrude text_sketch
      (text_thickness base_spec + flag_thickness base_spec / lit 2) in
  _ <- external k (NewPart relief) ;;
  _ <- external k (NewPart (iadd p relief)) ;;
  Ok (iadd p relief).

(** Lines 132-139: one iteration of the back-side loop; the extrusion is
    turned about Z before it is added. *)
Definition back_step (p : Part) (text_2d : Sketch) : result exn Part :=
  _ <- external k (CenterOf flag_body_box) ;;
  _ <- external k (CenterOf flag_body_box) ;;
  let moved :=
    SketchTranslate
      (fneg (X (center k flag_body_box)), Z (center k flag_body_box))
      text_2d in
  _ <- external k (NewSketch moved) ;;
  let text_sketch := OnPlane PlaneXZ moved in
  _ <- external k (NewSketch text_sketch) ;;
  if negb (is_sketch k text_sketch) then Err (AssertionError []) else
  let extruded :=
    Extrude text_sketch
      (text_thickness base_spec + flag_thickness base_spec / lit 2) in
  _ <- external k (NewPart extruded) ;;
  let relief := Rotate AxisZ (lit 180) extruded in
  _ <- external k (NewPart relief) ;;
  _ <- external k (NewPart (iadd p relief)) ;;
  Ok (iadd p relief).

(** Lines 47-147, call by call in the order of evaluation.  Each [for]
    loop runs over the pair [(text_2d_top, text_2d_bottom)]. *)
Definition make_bushing : result exn Part :=
  _ <- external k (NewPart EmptyPart) ;;
  let p := EmptyPart in
  _ <- external k (NewPart sleeve) ;;
  _ <- external k (NewPart (iadd p sleeve)) ;;
  let p := iadd p sleeve in
  _ <- external k
         (NewSketch (Text effective_text_top (text_font_size base_spec)
                          (CENTER, MIN))) ;;
  _ <- external k (NewSketch text_2d_top) ;;
  _ <- external k
         (NewSketch (Text effective_text_bottom (text_font_size base_spec)
                          (CENTER, MAX))) ;;
  _ <- external k (NewSketch text_2d_bottom) ;;
  _ <- external k (BoundingBoxOf text_2d_top) ;;
  _ <- external k (BoundingBoxOf text_2d_bottom) ;;
  let cone :=
    Cone (pymin (bushing_od base_spec / lit 2)
                (bushing_length base_spec / lit 2))
         (flag_thickness base_spec / lit 2)
         (flag_stem_length_radial base_spec + bushing_od base_spec / lit 2)
         (CENTER, CENTER, MIN) in
  _ <- external k (NewPart cone) ;;
  _ <- external k (NewPart (Rotate AxisY (lit 90) cone)) ;;
  _ <- external k (NewPart flag_stem) ;;
  _ <- external k (NewPart (iadd p flag_stem)) ;;
  let p := iadd p flag_stem in
  _ <- external k
         (NewPart (Box computed_flag_length (flag_thickness base_spec)
                       (flag_height base_spec) (MIN, CENTER, MIN))) ;;
  _ <- external k (NewPart flag_body_box) ;;
  _ <- external k (NewPart (iadd p flag_body_box)) ;;
  let p := iadd p flag_body_box in
  p <- for_each front_step [text_2d_top; text_2d_bottom] p ;;
  p <- for_each back_step [text_2d_top; text_2d_bottom] p ;;
  _ <- external k (NewPart bore) ;;
  _ <- external k (NewPart (isub p bore)) ;;
  Ok (isub p bore).

(** The value [make_bushing] returns when nothing raises. *)
Definition bushing_part : Part :=
  let p := EmptyPart in
  let p := iadd p sleeve in
  let p := iadd p flag_stem in
  let p := iadd p flag_body_box in
  let p := fold_left (fun p text_2d => iadd p (front_relief text_2d))
                     [text_2d_top; text_2d_bottom] p in
  let p := fold_left (fun p text_2d => iadd p (back_relief text_2d))
                     [text_2d_top; text_2d_bottom] p in
  let p := isub p bore in
  p.

End MakeBushing.

(** ** Construction of a spec from keyword arguments *)

(** One entry of the parts list: the fields it overrides, each with a value
    of the annotated type, and the keys that name no field, in the order of
    the entry.  (A value of another type is stored as it is by the generated
    [__init__] and makes a later comparison or division raise; such entries
    are not represented.) *)
Record Overrides : Type := {
  o_bushing_id : option num;
  o_bushing_od : option num;
  o_bushing_length : option num;
  o_bushing_each_time : option BinNums.Z;
  o_flag_thickness : option num;
  o_flag_length : option num;
  o_flag_height : option num;
  o_text_font_size : option num;
  o_text_thickness : option num;
  o_flag_stem_length_radial : option num;
  o_flag_stem_od : option num;
  o_text_top : option string;
  o_text_bottom : option string;
  o_unknown : list string
}.

Definition or_default {A} (o : option A) (d : A) : A :=
  match o with
  | Some v => v
  | None => d
  end.

(** The call of [BushingSpec] with keyword arguments [kw]: a key that names
    no field is refused first, then a missing [bushing_length], the only
    field without a default; the generated [__init__] stores the fields and
    runs [__post_init__]. *)
Definition BushingSpec_init (kw : Overrides) : result exn BushingSpec :=
  match o_unknown kw with
  | key :: _ =>
      Err (TypeError
        ("BushingSpec.__init__() got an unexpected keyword argument '"
         ++ key ++ "'"))
  | [] =>
  match o_bushing_length kw with
  | None =>
      Err (TypeError
        "BushingSpec.__init__() missing 1 required keyword-only argument: 'bushing_length'")
  | Some len =>
      let self := {|
        bushing_id := or_default (o_bushing_id kw) (lit 3.2);
        bushing_od := or_default (o_bushing_od kw) (lit 6.4);
        bushing_length := len;
        bushing_each_time := or_default (o_bushing_each_time kw) 4%Z;
        flag_thickness := or_default (o_flag_thickness kw) (lit 2.8);
        flag_length := or_default (o_flag_length kw) (lit 15);
        flag_height := or_default (o_flag_height kw) (lit 12);
        text_font_size := or_default (o_text_font_size kw) (lit 5);
        text_thickness := or_default (o_text_thickness kw) (lit 1);
        flag_stem_length_radial := or_default (o_flag_stem_length_radial kw) (lit 4);
        flag_stem_od := or_default (o_flag_stem_od kw) (lit 3.5);
        text_top := or_default (o_text_top kw) EmptyString;
        text_bottom := or_default (o_text_bottom kw) EmptyString
      |} in
      _ <- post_init self ;; Ok self
  end
  end.

(** ** The batch driver [make_many_bushings] *)

(** What a run does to the outside, in order. *)
Inductive effect : Type :=
| Mkdir
| Show (p : Part)
| ExportStl (p : Part) (file_name : string)
| LogInfo (msg : string).

Section Driver.

Variable k : Kernel.

Definition str_of_nat (i : nat) : string :=
  NilZero.string_of_uint (Nat.to_uint i).

(** Lines 177-185. *)
Definition file_stem_of (i : nat) (bushing_overrides : Overrides) : string :=
  let file_stem := ("bushing_" ++ str_of_nat i)%string in
  match o_text_top bushing_overrides, o_text_bottom bushing_overrides with
  | Some top, Some bottom =>
      (file_stem ++ " - " ++ top ++ " to " ++ bottom)%string
  | _, _ => file_stem
  end.

(** Lines 168-188: one iteration of the loop; the result is the new value
    of [part], or the exception that ends the run, with the effects that
    took place before it. *)
Definition loop_body (i : nat) (bushing_overrides : Overrides)
  : result exn Part * list effect :=
  match BushingSpec_init bushing_overrides with
  | Err e => (Err e, [])
  | Ok spec =>
  match make_bushing k spec with
  | Err e => (Err e, [])
  | Ok built =>
      let part :=
        Translate (lit 0, lit (inject_Z (BinInt.Z.of_nat i)) * bushing_od spec + lit 5, lit 0)
                  built in
      match external k (NewPart part) with
      | Err e => (Err e, [])
      | Ok _ =>
      match external k (ShowPart part) with
      | Err e => (Err e, [])
      | Ok _ =>
      if negb (is_part_compound_or_solid k part) then
        (Err (AssertionError [Lit "part is not a Part: "; Repr part]),
         [Show part])
      else
        let file_stem := file_stem_of i bushing_overrides in
        match external k (ExportStlFile part (file_stem ++ ".stl")%string) with
        | Err e => (Err e, [Show part])
        | Ok _ =>
        (Ok part,
         [Show part;
          ExportStl part (file_stem ++ ".stl")%string;
          LogInfo ("Exported '" ++ file_stem ++ ".stl'")%string])
        end
      end
      end
  end
  end.

(** Lines 167-188: [for i, bushing_overrides in enumerate(bushing_list)],
    started at index [i] with [part] bound or not. *)
Fixpoint loop (i : nat) (bushing_list : list Overrides) (part : option Part)
  : result exn (option Part) * list effect :=
  match bushing_list with
  | [] => (Ok part, [])
  | bushing_overrides :: rest =>
      match loop_body i bushing_overrides with
      | (Err e, tr) => (Err e, tr)
      | (Ok p, tr) =>
          let '(r, tr') := loop (S i) rest (Some p) in
          (r, tr ++ tr')
      end
  end.

(** Lines 156-190: the reading of the file, whose result when it returns
    is [bushing_list], then [mkdir], the loop, and [return part], which
    needs the loop to have run once. *)
Definition make_many_bushings (bushing_list : list Overrides)
  : result exn Part * list effect :=
  match external k ReadList with
  | Err e => (Err e, [])
  | Ok _ =>
  match external k MakeDirs with
  | Err e => (Err e, [])
  | Ok _ =>
      let '(r, tr) := loop 0 bushing_list None in
      (match r with
       | Err e => Err e
       | Ok None => Err (UnboundLocalError "part")
       | Ok (Some part) => Ok part
       end, Mkdir :: tr)
  end
  end.

End Driver.

(** ** Reading a part back *)

(** The boolean steps that produced a part, oldest first, and the value the
    accumulator started from. *)
Inductive step : Type :=
| Union (operand : Part)
| Subtract (operand : Part).

Fixpoint history (p : Part) : Part * list step :=
  match p with
  | Fuse a b => let '(start, steps) := history a in (start, steps ++ [Union b])
  | Cut a b => let '(start, steps) := history a in (start, steps ++ [Subtract b])
  | _ => (p, [])
  end.

(** ** Predicates used in the statements *)

(** The two conditions asserted by [__post_init__]. *)
Definition valid (s : BushingSpec) : Prop :=
  (bushing_od s >? bushing_id s) = true /\
  (flag_stem_od s <? bushing_od s) = true.

(** Keyword arguments that give every field. *)
Definition given (s : BushingSpec) : Overrides := {|
  o_bushing_id := Some (bushing_id s);
  o_bushing_od := Some (bushing_od s);
  o_bushing_length := Some (bushing_length s);
  o_bushing_each_time := Some (bushing_each_time s);
  o_flag_thickness := Some (flag_thickness s);
  o_flag_length := Some (flag_length s);
  o_flag_height := Some (flag_height s);
  o_text_font_size := Some (text_font_size s);
  o_text_thickness := Some (text_thickness s);
  o_flag_stem_length_radial := Some (flag_stem_length_radial s);
  o_flag_stem_od := Some (flag_stem_od s);
  o_text_top := Some (text_top s);
  o_text_bottom := Some (text_bottom s);
  o_unknown := []
|}.

(** Two specs that agree on every field except [flag_stem_od],
    [flag_length] and [bushing_each_time]. *)
Definition same_geometry_inputs (s1 s2 : BushingSpec) : Prop :=
  bushing_id s1 = bushing_id s2 /\
  bushing_od s1 = bushing_od s2 /\
  bushing_length s1 = bushing_length s2 /\
  flag_thickness s1 = flag_thickness s2 /\
  flag_height s1 = flag_height s2 /\
  text_font_size s1 = text_font_size s2 /\
  text_thickness s1 = text_thickness s2 /\
  flag_stem_length_radial s1 = flag_stem_length_radial s2 /\
  text_top s1 = text_top s2 /\
  text_bottom s1 = text_bottom s2.

(** The lower edge of the top outline, the upper edge of the bottom
    outline, and the clear distance between the two. *)
Definition top_outline_lower_edge (k : Kernel) (s : BushingSpec) : num :=
  Y (bb_min (bounding_box k (text_2d_top s))).
Definition bottom_outline_upper_edge (k : Kernel) (s : BushingSpec) : num :=
  Y (bb_max (bounding_box k (text_2d_bottom s))).
Definition outline_gap (k : Kernel) (s : BushingSpec) : num :=
  fsub (top_outline_lower_edge k s) (bottom_outline_upper_edge k s).

(** The engine's placement conventions for 2D text, as far as the vertical
    direction goes: [Align.MIN] puts the lower edge of the bounding box on the
    local origin, [Align.MAX] the upper edge, and [translate] shifts both
    edges by the vector's second component. *)
Definition vertical_placement (k : Kernel) : Prop :=
  (forall txt fs ax,
      Y (bb_min (bounding_box k (Text txt fs (ax, MIN)))) = lit 0) /\
  (forall txt fs ax,
      Y (bb_max (bounding_box k (Text txt fs (ax, MAX)))) = lit 0) /\
  (forall dx dy sk,
      Y (bb_min (bounding_box k (SketchTranslate (dx, dy) sk)))
      = Y (bb_min (bounding_box k sk)) + dy) /\
  (forall dx dy sk,
      Y (bb_max (bounding_box k (SketchTranslate (dx, dy) sk)))
      = Y (bb_max (bounding_box k sk)) + dy).

End Bushing.

Arguments BushingSpec num : clear implicits.
Arguments Overrides num : clear implicits.
Arguments Vector num : clear implicits.
Arguments BoundBox num : clear implicits.
Arguments Sketch num : clear implicits.
Arguments Part num : clear implicits.
Arguments Kernel num : clear implicits.
Arguments piece num : clear implicits.
Arguments exn num : clear implicits.
Arguments step num : clear implicits.
Arguments effect num : clear implicits.
Arguments call num : clear implicits.

(** ** A reference engine over exact rationals

    Enough of the engine's conventions to run the model on examples: text is
    set in a fixed-pitch font (each character 0.6 em wide, one em high), an
    alignment places the extent of a bounding box relative to the origin, and
    a translation shifts the box. *)

Module Reference.

Definition vec (x y z : Q) : Vector Q := {| X := x; Y := y; Z := z |}.

Definition box_of (lo hi : Vector Q) : BoundBox Q :=
  {| bb_min := lo; bb_max := hi;
     bb_size := vec (X hi - X lo) (Y hi - Y lo) (Z hi - Z lo) |}.

Definition aligned (a : Align) (extent : Q) : Q * Q :=
  match a with
  | MIN => (0, extent)
  | CENTER => (- (extent / 2), extent / 2)
  | MAX => (- extent, 0)
  end.

Definition text_width (txt : string) (font_size : Q) : Q :=
  0.6 * font_size * inject_Z (Z.of_nat (py_len txt)).

Fixpoint box_of_sketch (s : Sketch Q) : BoundBox Q :=
  match s with
  | Text txt font_size (ax, ay) =>
      let '(x0, x1) := aligned ax (text_width txt font_size) in
      let '(y0, y1) := aligned ay font_size in
      box_of (vec x0 y0 0) (vec x1 y1 0)
  | SketchTranslate (dx, dy) s' =>
      let b := box_of_sketch s' in
      box_of (vec (X (bb_min b) + dx) (Y (bb_min b) + dy) (Z (bb_min b)))
             (vec (X (bb_max b) + dx) (Y (bb_max b) + dy) (Z (bb_max b)))
  | OnPlane PlaneXZ s' =>
      let b := box_of_sketch s' in
      box_of (vec (X (bb_min b)) (- Z (bb_max b)) (Y (bb_min b)))
             (vec (X (bb_max b)) (- Z (bb_min b)) (Y (bb_max b)))
  | OnPlane _ s' => box_of_sketch s'
  end.

Definition middle (e : Q * Q) : Q := (fst e + snd e) / 2.

(** Centres of the aligned primitives and of their translates; the origin
    for everything else. *)
Fixpoint center_of (p : Part Q) : Vector Q :=
  match p with
  | Box l w h (ax, ay, az) =>
      vec (middle (aligned ax l)) (middle (aligned ay w)) (middle (aligned az h))
  | Cylinder r h (ax, ay, az) =>
      vec (middle (aligned ax (2 * r))) (middle (aligned ay (2 * r)))
          (middle (aligned az h))
  | Translate (dx, dy, dz) q =>
      let c := center_of q in vec (X c + dx) (Y c + dy) (Z c + dz)
  | _ => vec 0 0 0
  end.

(** Nothing raises and every class test passes. *)
Definition kernel : Kernel Q := {|
  bounding_box := box_of_sketch;
  center := center_of;
  is_part_compound_or_solid := fun _ => true;
  is_sketch := fun _ => true;
  raises := fun _ => None
|}.

(** An engine that does not take the outline of an empty text for a
    sketch, and a file system without subfolders: a file name with a slash
    makes the export raise. *)
Fixpoint outline_text (s : Sketch Q) : string :=
  match s with
  | Text txt _ _ => txt
  | SketchTranslate _ s' => outline_text s'
  | OnPlane _ s' => outline_text s'
  end.

Fixpoint has_slash (s : string) : bool :=
  match s with
  | EmptyString => false
  | String c rest => Ascii.eqb c "/" || has_slash rest
  end.

Definition strict_kernel : Kernel Q := {|
  bounding_box := box_of_sketch;
  center := center_of;
  is_part_compound_or_solid := fun _ => true;
  is_sketch := fun s => negb (Nat.eqb (py_len (outline_text s)) 0);
  raises := fun c =>
    match c with
    | ExportStlFile _ name =>
        if has_slash name then Some "FileNotFoundError"%string else None
    | _ => None
    end
|}.

End Reference.

(** ** The same engine in binary64 *)

Module Reference64.

Definition vec (x y z : float) : Vector float := {| X := x; Y := y; Z := z |}.

Definition box_of (lo hi : Vector float) : BoundBox float :=
  {| bb_min := lo; bb_max := hi;
     bb_size := vec (X hi - X lo) (Y hi - Y lo) (Z hi - Z lo) |}.

Definition aligned (a : Align) (extent : float) : float * float :=
  match a with
  | MIN => (0, extent)
  | CENTER => (- (extent / 2), extent / 2)
  | MAX => (- extent, 0)
  end%float.

Definition text_width (txt : string) (font_size : float) : float :=
  (lit 0.6 * font_size * float_of_Z (BinInt.Z.of_nat (py_len txt)))%float.

Fixpoint box_of_sketch (s : Sketch float) : BoundBox float :=
  match s with
  | Text txt font_size (ax, ay) =>
      let '(x0, x1) := aligned ax (text_width txt font_size) in
      let '(y0, y1) := aligned ay font_size in
      box_of (vec x0 y0 0) (vec x1 y1 0)
  | SketchTranslate (dx, dy) s' =>
      let b := box_of_sketch s' in
      box_of (vec (X (bb_min b) + dx) (Y (bb_min b) + dy) (Z (bb_min b)))
             (vec (X (bb_max b) + dx) (Y (bb_max b) + dy) (Z (bb_max b)))
  | OnPlane _ s' => box_of_sketch s'
  end%float.

Definition middle (e : float * float) : float := ((fst e + snd e) / 2)%float.

Fixpoint center_of (p : Part float) : Vector float :=
  match p with
  | Box l w h (ax, ay, az) =>
      vec (middle (aligned ax l)) (middle (aligned ay w)) (middle (aligned az h))
  | Translate (dx, dy, dz) q =>
      let c := center_of q in vec (X c + dx) (Y c + dy) (Z c + dz)
  | _ => vec 0 0 0
  end%float.

Definition kernel : Kernel float := {|
  bounding_box := box_of_sketch;
  center := center_of;
  is_part_compound_or_solid := fun _ => true;
  is_sketch := fun _ => true;
  raises := fun _ => None
|}.

End Reference64.

(** ** Sample inputs *)

Module Sample.

Definition no_overrides {num : Type} : Overrides num := {|
  o_bushing_id := None; o_bushing_od := None; o_bushing_length := None;
  o_bushing_each_time := None; o_flag_thickness := None;
  o_flag_length := None; o_flag_height := None; o_text_font_size := None;
  o_text_thickness := None; o_flag_stem_length_radial := None;
  o_flag_stem_od := None; o_text_top := None; o_text_bottom := None;
  o_unknown := []
|}.

(** [{"bushing_length": 10}] *)
Definition length_only {num : Type} `{PyNumber num} : Overrides num := {|
  o_bushing_id := None; o_bushing_od := None;
  o_bushing_length := Some (lit 10);
  o_bushing_each_time := None; o_flag_thickness := None;
  o_flag_length := None; o_flag_height := None; o_text_font_size := None;
  o_text_thickness := None; o_flag_stem_length_radial := None;
  o_flag_stem_od := None; o_text_top := None; o_text_bottom := None;
  o_unknown := []
|}.

(** [{"bushing_length": 10, "text_top": "M3", "text_bottom": "8mm"}] *)
Definition labelled {num : Type} `{PyNumber num} : Overrides num := {|
  o_bushing_id := None; o_bushing_od := None;
  o_bushing_length := Some (lit 10);
  o_bushing_each_time := None; o_flag_thickness := None;
  o_flag_length := None; o_flag_height := None; o_text_font_size := None;
  o_text_thickness := None; o_flag_stem_length_radial := None;
  o_flag_stem_od := None;
  o_text_top := Some "M3"%string; o_text_bottom := Some "8mm"%string;
  o_unknown := []
|}.

(** The spec with every default and the given length and labels. *)
Definition spec_of {num : Type} `{PyNumber num}
    (len : num) (top bottom : string) : BushingSpec num := {|
  bushing_id := lit 3.2;
  bushing_od := lit 6.4;
  bushing_length := len;
  bushing_each_time := 4;
  flag_thickness := lit 2.8;
  flag_length := lit 15;
  flag_height := lit 12;
  text_font_size := lit 5;
  text_thickness := lit 1;
  flag_stem_length_radial := lit 4;
  flag_stem_od := lit 3.5;
  text_top := top;
  text_bottom := bottom
|}.

(** The labelled spec with chosen values for the three fields that
    [make_bushing] never reads. *)
Definition spec_with {num : Type} `{PyNumber num}
    (each_time : BinNums.Z) (nominal_flag_length stem_od : num) : BushingSpec num := {|
  bushing_id := lit 3.2;
  bushing_od := lit 6.4;
  bushing_length := lit 10;
  bushing_each_time := each_time;
  flag_thickness := lit 2.8;
  flag_length := nominal_flag_length;
  flag_height := lit 12;
  text_font_size := lit 5;
  text_thickness := lit 1;
  flag_stem_length_radial := lit 4;
  flag_stem_od := stem_od;
  text_top := "M3";
  text_bottom := "8mm"
|}.

(** A bore wider than the sleeve: [bushing_id = 8], [bushing_od = 6.4]. *)
Definition wide_bore {num : Type} `{PyNumber num} : BushingSpec num := {|
  bushing_id := lit 8;
  bushing_od := lit 6.4;
  bushing_length := lit 10;
  bushing_each_time := 4;
  flag_thickness := lit 2.8;
  flag_length := lit 15;
  flag_height := lit 12;
  text_font_size := lit 5;
  text_thickness := lit 1;
  flag_stem_length_radial := lit 4;
  flag_stem_od := lit 3.5;
  text_top := "A";
  text_bottom := "BB"
|}.

(** [{"bushing_length": 10, "colour": "red"}] *)
Definition with_colour {num : Type} `{PyNumber num} : Overrides num := {|
  o_bushing_id := None; o_bushing_od := None;
  o_bushing_length := Some (lit 10);
  o_bushing_each_time := None; o_flag_thickness := None;
  o_flag_length := None; o_flag_height := None; o_text_font_size := None;
  o_text_thickness := None; o_flag_stem_length_radial := None;
  o_flag_stem_od := None; o_text_top := None; o_text_bottom := None;
  o_unknown := ["colour"%string]
|}.

(** [{"bushing_length": 10, "text_top": "1/4", "text_bottom": "in"}] *)
Definition slashed {num : Type} `{PyNumber num} : Overrides num := {|
  o_bushing_id := None; o_bushing_od := None;
  o_bushing_length := Some (lit 10);
  o_bushing_each_time := None; o_flag_thickness := None;
  o_flag_length := None; o_flag_height := None; o_text_font_size := None;
  o_text_thickness := None; o_flag_stem_length_radial := None;
  o_flag_stem_od := None;
  o_text_top := Some "1/4"%string; o_text_bottom := Some "in"%string;
  o_unknown := []
|}.

End Sample.

(** ** Reading a run back *)

Section Readback.

Context {num : Type} `{PyNumber num}.

(** Line 170: the part of entry [i], moved to its place in the row. *)
Definition placed (k : Kernel num) (i : nat) (spec : BushingSpec num)
  : Part num :=
  Translate
    (lit 0,
     fadd (fmul (lit (inject_Z (BinInt.Z.of_nat i))) (bushing_od spec)) (lit 5),
     lit 0)
    (bushing_part k spec).

(** The four outlines as they are placed on the flag, in the order of the
    two loops: the values the assertions of lines 124 and 135 look at. *)
Definition placed_outlines (k : Kernel num) (s : BushingSpec num)
  : list (Sketch num) :=
  let c := center k (flag_body_box k s) in
  [OnPlane PlaneXZ (SketchTranslate (X c, Z c) (text_2d_top s));
   OnPlane PlaneXZ (SketchTranslate (X c, Z c) (text_2d_bottom s));
   OnPlane PlaneXZ (SketchTranslate (fneg (X c), Z c) (text_2d_top s));
   OnPlane PlaneXZ (SketchTranslate (fneg (X c), Z c) (text_2d_bottom s))].

(** An outside where no call raises. *)
Definition quiet (k : Kernel num) : Prop := forall c, raises k c = None.

(** An entry whose iteration runs to its end: the constructor returns a
    spec, [make_bushing] returns its part, neither the move to the place in
    the row nor [show] raises, the class test passes and the export does not
    raise. *)
Definition entry_ok (k : Kernel num) (i : nat) (kw : Overrides num) : Prop :=
  exists spec,
    BushingSpec_init kw = Ok spec
    /\ make_bushing k spec = Ok (bushing_part k spec)
    /\ raises k (NewPart (placed k i spec)) = None
    /\ raises k (ShowPart (placed k i spec)) = None
    /\ is_part_compound_or_solid k (placed k i spec) = true
    /\ raises k (ExportStlFile (placed k i spec)
                   (file_stem_of i kw ++ ".stl")%string) = None.

Fixpoint entries_ok (k : Kernel num) (i : nat) (l : list (Overrides num))
  : Prop :=
  match l with
  | [] => True
  | kw :: rest => entry_ok k i kw /\ entries_ok k (S i) rest
  end.

(** The files written by a run, in order. *)
Definition exported_names (tr : list (effect num)) : list string :=
  flat_map (fun e => match e with
                     | ExportStl _ name => [name]
                     | _ => []
                     end) tr.

(** The file names of the entries of a list whose first index is [i]. *)
Fixpoint names_from (i : nat) (l : list (Overrides num)) : list string :=
  match l with
  | [] => []
  | kw :: rest => (file_stem_of i kw ++ ".stl")%string :: names_from (S i) rest
  end.

End Readback.

(** Reading the index back from a file name: the digits that follow the
    eight characters of ["bushing_"]. *)
Definition is_digit (c : ascii) : bool :=
  ((48 <=? nat_of_ascii c) && (nat_of_ascii c <=? 57))%nat.

Fixpoint leading_digits (s : string) : string :=
  match s with
  | String c rest =>
      if is_digit c then String c (leading_digits rest) else EmptyString
  | EmptyString => EmptyString
  end.

Fixpoint string_drop (n : nat) (s : string) : string :=
  match n, s with
  | S n', String _ rest => string_drop n' rest
  | _, _ => s
  end.

Definition index_of_name (name : string) : option nat :=
  option_map Nat.of_uint
    (NilZero.uint_of_string (leading_digits (string_drop 8 name))).

(** [{"bushing_length": len}]: an entry that gives the length only. *)
Definition only_length {num : Type} (len : num) : Overrides num := {|
  o_bushing_id := None; o_bushing_od := None;
  o_bushing_length := Some len;
  o_bushing_each_time := None; o_flag_thickness := None;
  o_flag_length := None; o_flag_height := None; o_text_font_size := None;
  o_text_thickness := None; o_flag_stem_length_radial := None;
  o_flag_stem_od := None; o_text_top := None; o_text_bottom := None;
  o_unknown := []
|}.

(** * Binary64 addition, in integers *)

(** The results of [SpecFloat]'s rounding written with integer division:
    a float of the binary64 format is an integer multiple of [2 ^ -1074],
    and the sum of two floats is the nearest float to the sum of the two
    integers, ties to even. *)

Module Binary64.

Local Open Scope Z_scope.

(** The record after [j + 1] shifts to the right. *)
Definition shifted (m : BinNums.Z) (j : nat) : shr_record :=
  Build_shr_record (m / 2 ^ (Z.of_nat j + 1))
                   (Z.odd (m / 2 ^ Z.of_nat j))
                   (negb (m mod 2 ^ Z.of_nat j =? 0)).

(** Rounding [v / 2 ^ n] to the nearest integer, ties to even. *)
Definition rnd_half (v n : BinNums.Z) : BinNums.Z :=
  let q := v / 2 ^ n in
  let r2 := 2 * (v mod 2 ^ n) in
  if r2 <? 2 ^ n then q
  else if 2 ^ n <? r2 then q + 1
  else if Z.even q then q else q + 1.

(** The float nearest to [v * 2 ^ -1074], of sign [s], for [v > 0]. *)
Definition round_scaled (s : bool) (v : BinNums.Z) : spec_float :=
  let n := Z.max (Z.log2 v + 1 - 53) 0 in
  let m := rnd_half v n in
  let e := n - 1074 in
  if m =? 2 ^ 53 then
    if e + 1 <=? 971 then S754_finite s (Z.to_pos (2 ^ 52)) (e + 1)
    else S754_infinity s
  else
    if e <=? 971 then S754_finite s (Z.to_pos m) e
    else S754_infinity s.

(** The float nearest to [v * 2 ^ -1074], for any integer [v]. *)
Definition round_value (v : BinNums.Z) : spec_float :=
  if v =? 0 then S754_zero false
  else if 0 <? v then round_scaled false v
  else round_scaled true (- v).

(** The mantissa and exponent of [round_scaled], before the test for
    overflow. *)
Definition normal_form (v : BinNums.Z) : BinNums.Z * BinNums.Z :=
  let n := Z.max (Z.log2 v + 1 - 53) 0 in
  let m := rnd_half v n in
  if m =? 2 ^ 53 then (2 ^ 52, n - 1074 + 1) else (m, n - 1074).

(** The float of a mantissa and an exponent, or an infinity. *)
Definition pack (s : bool) (me : BinNums.Z * BinNums.Z) : spec_float :=
  if snd me <=? 971 then S754_finite s (Z.to_pos (fst me)) (snd me)
  else S754_infinity s.

(** The order of two normal forms. *)
Definition below (a b : BinNums.Z * BinNums.Z) : Prop :=
  0 < fst a /\ 0 < fst b
  /\ (snd a < snd b \/ (snd a = snd b /\ fst a <= fst b)).

(** The value of a finite float, in units of [2 ^ -1074]. *)
Definition scaled_value (x : spec_float) : BinNums.Z :=
  match x with
  | S754_finite s m e => cond_Zopp s (Zpos m * 2 ^ (e + 1074))
  | _ => 0
  end.

(** Zeros and finite floats: neither infinite nor NaN. *)
Definition is_finite_SF (x : spec_float) : bool :=
  match x with
  | S754_zero _ | S754_finite _ _ _ => true
  | _ => false
  end.

(** The float 2. *)
Definition two : spec_float := S754_finite false 4503599627370496 (-51).

End Binary64.

(** * Properties *)

Local Open Scope nat_scope.

(** ** Strings *)

Lemma length_append (s t : string) :
  String.length (s ++ t) = String.length s + String.length t.
Proof.
  induction s as [|c s IH]; simpl; [reflexivity | now rewrite IH].
Qed.

Lemma py_len_append (s t : string) :
  py_len (s ++ t) = py_len s + py_len t.
Proof.
  induction s as [|c s IH]; cbn [append py_len]; [reflexivity|].
  destruct (is_continuation c); now rewrite IH.
Qed.

Lemma suffix_changes (s t : string) :
  t <> EmptyString -> (s ++ t)%string <> s.
Proof.
  intros Ht E. apply (f_equal String.length) in E.
  rewrite length_append in E.
  destruct t; [now apply Ht | simpl in E; lia].
Qed.

Lemma prefix_changes (s t : string) :
  t <> EmptyString -> (t ++ s)%string <> s.
Proof.
  intros Ht E. apply (f_equal String.length) in E.
  rewrite length_append in E.
  destruct t; [now apply Ht | simpl in E; lia].
Qed.

(** ** The label layout *)

Example layout_shorter_top :
  label_layout "A" "BB" = ("A to", "BB")%string.
Proof. reflexivity. Qed.

Example layout_tie :
  label_layout "AA" "BB" = ("AA to", "BB")%string.
Proof. reflexivity. Qed.

Example layout_longer_top :
  label_layout "AAA" "B" = ("AAA", "to B")%string.
Proof. reflexivity. Qed.

(** Two code points against two: a tie, although the first label takes
    three bytes. *)
Example layout_counts_code_points :
  String.length "Ø5" = 3 /\ py_len "Ø5" = 2
  /\ label_layout "Ø5" "ab" = ("Ø5 to", "ab")%string.
Proof. repeat split. Qed.

Lemma label_layout_le (top bottom : string) :
  py_len top <= py_len bottom ->
  label_layout top bottom = ((top ++ " to")%string, bottom).
Proof.
  intros Hle. unfold label_layout.
  now apply Nat.leb_le in Hle; rewrite Hle.
Qed.

Lemma label_layout_gt (top bottom : string) :
  py_len bottom < py_len top ->
  label_layout top bottom = (top, ("to " ++ bottom)%string).
Proof.
  intros Hlt. unfold label_layout.
  now apply Nat.leb_gt in Hlt; rewrite Hlt.
Qed.

(** ** Calls that return *)

Section Calls.

Context {num : Type} `{PyNumber num}.

Lemma external_bind {A : Type} (k : Kernel num) (c : call num)
    (f : unit -> result (exn num) A) (a : A) :
  (x <- external k c ;; f x) = Ok a -> raises k c = None /\ f tt = Ok a.
Proof.
  unfold external. destruct (raises k c); cbn [bind]; [discriminate|auto].
Qed.

Lemma external_quiet (k : Kernel num) (c : call num) :
  raises k c = None -> external k c = Ok tt.
Proof. unfold external. now intros ->. Qed.

End Calls.

(** Reading [H : make_bushing ... = Ok p] one call at a time. *)
Ltac next_call H :=
  first
    [ let R := fresh "Hcall" in
      apply external_bind in H; destruct H as [R H]; cbv beta in H
    | match type of H with
      | (if negb ?b then _ else _) = Ok _ =>
          let T := fresh "Htest" in
          destruct b eqn:T; cbn [negb] in H; [|discriminate H]
      end ].

Section Properties.

Context {num : Type} `{PyNumber num}.

(** ** What [make_bushing] returns *)

Lemma front_step_ok (k : Kernel num) (s : BushingSpec num)
    (p p' : Part num) (text_2d : Sketch num) :
  front_step k s p text_2d = Ok p' ->
  p' = iadd p (front_relief k s text_2d)
  /\ is_sketch k
       (OnPlane PlaneXZ
          (SketchTranslate
             (X (center k (flag_body_box k s)),
              Z (center k (flag_body_box k s))) text_2d)) = true.
Proof.
  unfold front_step. intros E. cbv zeta in E.
  repeat next_call E. injection E as <-. now split.
Qed.

Lemma back_step_ok (k : Kernel num) (s : BushingSpec num)
    (p p' : Part num) (text_2d : Sketch num) :
  back_step k s p text_2d = Ok p' ->
  p' = iadd p (back_relief k s text_2d)
  /\ is_sketch k
       (OnPlane PlaneXZ
          (SketchTranslate
             (fneg (X (center k (flag_body_box k s))),
              Z (center k (flag_body_box k s))) text_2d)) = true.
Proof.
  unfold back_step. intros E. cbv zeta in E.
  repeat next_call E. injection E as <-. now split.
Qed.

Lemma bind_ok {A B : Type} (r : result (exn num) A)
    (f : A -> result (exn num) B) (b : B) :
  (x <- r ;; f x) = Ok b -> exists a, r = Ok a /\ f a = Ok b.
Proof. destruct r as [a|e]; cbn [bind]; [eauto | discriminate]. Qed.

(** A build that returns has passed the four assertions and returns the
    part assembled from the named solids. *)
Lemma make_bushing_ok (k : Kernel num) (s : BushingSpec num) (p : Part num) :
  make_bushing k s = Ok p ->
  p = bushing_part k s
  /\ Forall (fun sk => is_sketch k sk = true) (placed_outlines k s).
Proof.
  unfold make_bushing. intros E. cbv zeta in E.
  repeat next_call E.
  apply bind_ok in E. destruct E as (p1 & E1 & E).
  apply bind_ok in E. destruct E as (p2 & E2 & E).
  repeat next_call E. injection E as <-.
  cbn [for_each] in E1, E2.
  apply bind_ok in E1. destruct E1 as (q1 & F1 & E1).
  apply bind_ok in E1. destruct E1 as (q2 & F2 & E1). injection E1 as <-.
  apply bind_ok in E2. destruct E2 as (q3 & F3 & E2).
  apply bind_ok in E2. destruct E2 as (q4 & F4 & E2). injection E2 as <-.
  apply front_step_ok in F1, F2. apply back_step_ok in F3, F4.
  destruct F1 as [-> T1], F2 as [-> T2], F3 as [-> T3], F4 as [-> T4].
  split; [reflexivity|].
  unfold placed_outlines. repeat constructor; assumption.
Qed.

(** Conversely, when no call raises and the four assertions pass, the
    build returns. *)
Lemma make_bushing_returns (k : Kernel num) (s : BushingSpec num) :
  quiet k ->
  Forall (fun sk => is_sketch k sk = true) (placed_outlines k s) ->
  make_bushing k s = Ok (bushing_part k s).
Proof.
  intros Hq Hs. unfold placed_outlines in Hs.
  inversion Hs as [|? ? T1 Hs1]; subst.
  inversion Hs1 as [|? ? T2 Hs2]; subst.
  inversion Hs2 as [|? ? T3 Hs3]; subst.
  inversion Hs3 as [|? ? T4 _]; subst.
  unfold make_bushing, for_each, front_step, back_step, external.
  cbv zeta.
  repeat progress (rewrite ?Hq, ?T1, ?T2, ?T3, ?T4; cbn [bind negb]).
  reflexivity.
Qed.

(** The steps of a part that is returned. *)
Lemma bushing_part_history (k : Kernel num) (s : BushingSpec num) :
  history (bushing_part k s) =
  (EmptyPart,
   [Union (sleeve s); Union (flag_stem s); Union (flag_body_box k s);
    Union (front_relief k s (text_2d_top s));
    Union (front_relief k s (text_2d_bottom s));
    Union (back_relief k s (text_2d_top s));
    Union (back_relief k s (text_2d_bottom s));
    Subtract (bore s)]).
Proof. reflexivity. Qed.

(** C1. The texts set on the flag are decided by the lengths of the two
    labels alone, counted in code points as [len] does: when [label_top] is
    not longer than [label_bottom] they are [label_top + " to"] and
    [label_bottom], otherwise [label_top] and ["to " + label_bottom].
    Exactly one of the two labels is changed, a tie puts the connector on
    the top label, labels of the same lengths take the same branch, and
    these are the texts the two outlines of a spec are rendered from. *)
Theorem label_layout_by_length
    (s : BushingSpec num) (label_top label_bottom : string) :
  label_layout label_top label_bottom
  = (if (py_len label_top <=? py_len label_bottom)%nat
     then ((label_top ++ " to")%string, label_bottom)
     else (label_top, ("to " ++ label_bottom)%string))
  /\ ((py_len label_top <= py_len label_bottom)%nat ->
      label_layout label_top label_bottom
      = ((label_top ++ " to")%string, label_bottom))
  /\ ((py_len label_bottom < py_len label_top)%nat ->
      label_layout label_top label_bottom
      = (label_top, ("to " ++ label_bottom)%string))
  /\ ((fst (label_layout label_top label_bottom) <> label_top /\
       snd (label_layout label_top label_bottom) = label_bottom) \/
      (fst (label_layout label_top label_bottom) = label_top /\
       snd (label_layout label_top label_bottom) <> label_bottom))
  /\ (py_len label_top = py_len label_bottom ->
      label_layout label_top label_bottom
      = ((label_top ++ " to")%string, label_bottom))
  /\ (forall top' bottom',
         py_len top' = py_len label_top ->
         py_len bottom' = py_len label_bottom ->
         (snd (label_layout top' bottom') = bottom' <->
          snd (label_layout label_top label_bottom) = label_bottom))
  /\ (text_top s = label_top -> text_bottom s = label_bottom ->
      text_2d_top s
      = SketchTranslate (lit 0, lit 0.6)
          (Text (fst (label_layout label_top label_bottom))
                (text_font_size s) (CENTER, MIN))
      /\ text_2d_bottom s
         = SketchTranslate (lit 0, lit (-0.6))
             (Text (snd (label_layout label_top label_bottom))
                   (text_font_size s) (CENTER, MAX))).
Proof.
  repeat split.
  - intros Hle; now apply label_layout_le.
  - intros Hlt; now apply label_layout_gt.
  - destruct (Nat.le_gt_cases (py_len label_top) (py_len label_bottom))
      as [Hle | Hgt].
    + left. rewrite (label_layout_le _ _ Hle); cbn [fst snd].
      split; [apply suffix_changes; discriminate | reflexivity].
    + right. rewrite (label_layout_gt _ _ Hgt); cbn [fst snd].
      split; [reflexivity | apply prefix_changes; discriminate].
  - intros Heq; apply label_layout_le; lia.
  - intros Hsame.
    destruct (Nat.le_gt_cases (py_len label_top) (py_len label_bottom))
      as [Hle | Hgt].
    + now rewrite (label_layout_le _ _ Hle).
    + exfalso.
      assert (Hgt' : py_len bottom' < py_len top') by lia.
      rewrite (label_layout_gt _ _ Hgt') in Hsame; cbn [fst snd] in Hsame.
      eapply prefix_changes; [ | exact Hsame]; discriminate.
  - intros Hsame.
    destruct (Nat.le_gt_cases (py_len top') (py_len bottom')) as [Hle | Hgt].
    + now rewrite (label_layout_le _ _ Hle).
    + exfalso.
      assert (Hgt' : py_len label_bottom < py_len label_top) by lia.
      rewrite (label_layout_gt _ _ Hgt') in Hsame; cbn [fst snd] in Hsame.
      eapply prefix_changes; [ | exact Hsame]; discriminate.
  - match goal with
    | Ht : text_top s = _, Hb : text_bottom s = _ |- _ =>
        unfold text_2d_top, effective_text_top; now rewrite Ht, Hb
    end.
  - match goal with
    | Ht : text_top s = _, Hb : text_bottom s = _ |- _ =>
        unfold text_2d_bottom, effective_text_bottom; now rewrite Ht, Hb
    end.
Qed.

(** ** Empty labels *)

Lemma default_labels (kw : Overrides num) (s : BushingSpec num) :
  o_text_top kw = None -> o_text_bottom kw = None ->
  BushingSpec_init kw = Ok s ->
  text_top s = EmptyString /\ text_bottom s = EmptyString.
Proof.
  unfold BushingSpec_init. intros Ht Hb.
  destruct (o_unknown kw); [|discriminate].
  destruct (o_bushing_length kw) as [len|]; [|discriminate].
  rewrite Ht, Hb. cbn [or_default].
  match goal with |- context [post_init ?x] => destruct (post_init x) end;
    cbn [bind]; intros E; [|discriminate].
  injection E as <-. split; reflexivity.
Qed.

(** C10. With both labels empty the comparison [len(top) <= len(bottom)]
    holds, so the top text becomes [" to"] and the bottom text stays empty:
    a part that is built carries, as its fourth and sixth solids, the
    outline of [" to"] extruded on the front of the flag and the same
    outline, mirrored and turned by 180 degrees about Z, on the back; the
    fifth and seventh are the reliefs of the empty text.  Whether the part
    is built is for the engine to say: when the outline of [" to"] is a
    [bd.Sketch] for it and that of the empty text is not, the assertion of
    line 124 stops the build in the second iteration of the front-side
    loop.  A spec built without label overrides has both labels empty. *)
Theorem empty_labels_carry_connector
    (k : Kernel num) (s : BushingSpec num) :
  text_top s = EmptyString -> text_bottom s = EmptyString ->
  let outline_top :=
    SketchTranslate (lit 0, lit 0.6)
      (Text " to" (text_font_size s) (CENTER, MIN)) in
  let outline_bottom :=
    SketchTranslate (lit 0, lit (-0.6))
      (Text EmptyString (text_font_size s) (CENTER, MAX)) in
  let body :=
    Translate
      (fadd (flag_stem_length_radial s) (fdiv (bushing_od s) (lit 2)),
       lit 0, lit 0)
      (Box (fadd (pymax (X (bb_size (bounding_box k outline_top)))
                        (X (bb_size (bounding_box k outline_bottom))))
                 (lit 2))
           (flag_thickness s) (flag_height s) (MIN, CENTER, MIN)) in
  let c := center k body in
  let depth := fadd (text_thickness s) (fdiv (flag_thickness s) (lit 2)) in
  (py_len (text_top s) <=? py_len (text_bottom s)) = true
  /\ effective_text_top s = " to"%string
  /\ effective_text_bottom s = EmptyString
  /\ (forall p,
         make_bushing k s = Ok p ->
         nth_error (snd (history p)) 3
         = Some (Union (Extrude
                          (OnPlane PlaneXZ
                             (SketchTranslate (X c, Z c) outline_top))
                          depth))
         /\ nth_error (snd (history p)) 4
            = Some (Union (Extrude
                             (OnPlane PlaneXZ
                                (SketchTranslate (X c, Z c) outline_bottom))
                             depth))
         /\ nth_error (snd (history p)) 5
            = Some (Union (Rotate AxisZ (lit 180)
                             (Extrude
                                (OnPlane PlaneXZ
                                   (SketchTranslate (fneg (X c), Z c)
                                      outline_top))
                                depth)))
         /\ nth_error (snd (history p)) 6
            = Some (Union (Rotate AxisZ (lit 180)
                             (Extrude
                                (OnPlane PlaneXZ
                                   (SketchTranslate (fneg (X c), Z c)
                                      outline_bottom))
                                depth))))
  /\ (quiet k ->
      is_sketch k (OnPlane PlaneXZ (SketchTranslate (X c, Z c) outline_top))
      = true ->
      is_sketch k (OnPlane PlaneXZ (SketchTranslate (X c, Z c) outline_bottom))
      = false ->
      make_bushing k s = Err (AssertionError []))
  /\ (forall kw s',
         o_text_top kw = None -> o_text_bottom kw = None ->
         BushingSpec_init kw = Ok s' ->
         text_top s' = EmptyString /\ text_bottom s' = EmptyString).
Proof.
  intros Ht Hb.
  assert (Etop : effective_text_top s = " to"%string)
    by (unfold effective_text_top; now rewrite Ht, Hb).
  assert (Ebot : effective_text_bottom s = EmptyString)
    by (unfold effective_text_bottom; now rewrite Ht, Hb).
  cbv zeta.
  split; [now rewrite Ht, Hb|]. split; [exact Etop|]. split; [exact Ebot|].
  split.
  { intros p E. apply make_bushing_ok in E. destruct E as [-> _].
    rewrite bushing_part_history. cbn [snd nth_error].
    unfold front_relief, back_relief, flag_body_box, computed_flag_length,
      max_text_width, text_2d_top, text_2d_bottom.
    rewrite Etop, Ebot. repeat split. }
  split.
  { intros Hq T1 T2.
    unfold make_bushing, for_each, front_step, external,
      flag_body_box, computed_flag_length, max_text_width,
      text_2d_top, text_2d_bottom.
    rewrite Etop, Ebot. cbv zeta.
    repeat progress (rewrite ?Hq, ?T1, ?T2; cbn [bind negb]).
    reflexivity. }
  intros kw s'. apply default_labels.
Qed.

(** ** Validation *)

Lemma given_fields (s : BushingSpec num) :
  {| bushing_id := bushing_id s;
     bushing_od := bushing_od s;
     bushing_length := bushing_length s;
     bushing_each_time := bushing_each_time s;
     flag_thickness := flag_thickness s;
     flag_length := flag_length s;
     flag_height := flag_height s;
     text_font_size := text_font_size s;
     text_thickness := text_thickness s;
     flag_stem_length_radial := flag_stem_length_radial s;
     flag_stem_od := flag_stem_od s;
     text_top := text_top s;
     text_bottom := text_bottom s |} = s.
Proof. now destruct s. Qed.

Lemma init_given (s : BushingSpec num) :
  BushingSpec_init (given s) = (_ <- post_init s ;; Ok s).
Proof.
  unfold BushingSpec_init, given; cbn [o_bushing_length or_default
    o_bushing_id o_bushing_od o_bushing_each_time o_flag_thickness
    o_flag_length o_flag_height o_text_font_size o_text_thickness
    o_flag_stem_length_radial o_flag_stem_od o_text_top o_text_bottom
    o_unknown].
  now rewrite given_fields.
Qed.

Lemma post_init_ok (s : BushingSpec num) :
  post_init s = Ok tt <-> valid s.
Proof.
  unfold post_init, valid.
  destruct (fgtb (bushing_od s) (bushing_id s));
    destruct (fltb (flag_stem_od s) (bushing_od s)); cbn [negb];
    split; intros E; try discriminate; try (split; reflexivity);
    destruct E; discriminate.
Qed.

Lemma init_ok_valid (kw : Overrides num) (s : BushingSpec num) :
  BushingSpec_init kw = Ok s -> valid s.
Proof.
  unfold BushingSpec_init.
  destruct (o_unknown kw); [|discriminate].
  destruct (o_bushing_length kw) as [len|]; [|discriminate].
  match goal with |- context [post_init ?x] =>
    destruct (post_init x) as [[]|e] eqn:E end;
    cbn [bind]; intros E'; [|discriminate].
  injection E' as <-. now apply post_init_ok.
Qed.

(** C3. Built from field values [s], a spec is [s] itself exactly when
    [bushing_od > bushing_id] and [flag_stem_od < bushing_od]; every spec
    that is built satisfies both.  Otherwise the constructor raises the
    assertion error of the first violated condition, whose message carries
    the two values compared, and the driver's iteration ends there: nothing
    is shown, exported or logged for that entry. *)
Theorem construction_checks_diameters
    (k : Kernel num) (s : BushingSpec num) :
  (BushingSpec_init (given s) = Ok s <-> valid s)
  /\ (forall s', BushingSpec_init (given s) = Ok s' -> s' = s)
  /\ (forall kw s', BushingSpec_init kw = Ok s' -> valid s')
  /\ (fgtb (bushing_od s) (bushing_id s) = false ->
      BushingSpec_init (given s)
      = Err (AssertionError
               [Lit "OD "; Val (bushing_od s);
                Lit " < ID "; Val (bushing_id s)]))
  /\ (fgtb (bushing_od s) (bushing_id s) = true ->
      fltb (flag_stem_od s) (bushing_od s) = false ->
      BushingSpec_init (given s)
      = Err (AssertionError
               [Lit "Flag stem OD "; Val (flag_stem_od s); Lit " > ";
                Lit "Bushing OD "; Val (bushing_od s)]))
  /\ (~ valid s -> exists msg,
         BushingSpec_init (given s) = Err (AssertionError msg))
  /\ (forall i kw e,
         BushingSpec_init kw = Err e -> loop_body k i kw = (Err e, [])).
Proof.
  assert (Hok : BushingSpec_init (given s) = Ok s <-> valid s).
  { rewrite init_given, <- post_init_ok.
    destruct (post_init s) as [[]|e]; cbn [bind];
      split; intros E; try reflexivity; discriminate. }
  split; [exact Hok|].
  split.
  { intros s'. rewrite init_given.
    destruct (post_init s) as [[]|e]; cbn [bind]; congruence. }
  split; [intros kw s'; apply init_ok_valid|].
  split.
  { intros Hod. rewrite init_given. unfold post_init. now rewrite Hod. }
  split.
  { intros Hod Hstem. rewrite init_given. unfold post_init.
    now rewrite Hod, Hstem. }
  split.
  { intros Hnot. rewrite init_given. unfold post_init.
    destruct (fgtb (bushing_od s) (bushing_id s)) eqn:Hod; cbn [negb bind];
      [|eauto].
    destruct (fltb (flag_stem_od s) (bushing_od s)) eqn:Hstem;
      cbn [negb bind]; [|eauto].
    exfalso; apply Hnot; split; assumption. }
  intros i kw e E. unfold loop_body. now rewrite E.
Qed.

(** ** Composition *)

(** C4. A part that [make_bushing] returns is built by eight steps on an
    accumulator that starts empty: the sleeve, the stem and the flag body
    are united in that order, then the four text reliefs (top and bottom
    text on the front, top and bottom text on the back), and the bore is
    subtracted last.  The bore is a cylinder of radius [bushing_id / 2] with
    the height and the alignment of the sleeve, and neither cylinder is
    moved.  The build returns whenever no call raises and the four outlines
    pass the assertion of the loops. *)
Theorem composition_order (k : Kernel num) (s : BushingSpec num) :
  let half := fun x => fdiv x (lit 2) in
  let outline_top :=
    SketchTranslate (lit 0, lit 0.6)
      (Text (fst (label_layout (text_top s) (text_bottom s)))
            (text_font_size s) (CENTER, MIN)) in
  let outline_bottom :=
    SketchTranslate (lit 0, lit (-0.6))
      (Text (snd (label_layout (text_top s) (text_bottom s)))
            (text_font_size s) (CENTER, MAX)) in
  let offset := fadd (flag_stem_length_radial s) (half (bushing_od s)) in
  let body :=
    Translate (offset, lit 0, lit 0)
      (Box (fadd (pymax (X (bb_size (bounding_box k outline_top)))
                        (X (bb_size (bounding_box k outline_bottom))))
                 (lit 2))
           (flag_thickness s) (flag_height s) (MIN, CENTER, MIN)) in
  let c := center k body in
  let depth := fadd (text_thickness s) (half (flag_thickness s)) in
  let front := fun outline =>
    Extrude (OnPlane PlaneXZ (SketchTranslate (X c, Z c) outline)) depth in
  let back := fun outline =>
    Rotate AxisZ (lit 180)
      (Extrude (OnPlane PlaneXZ (SketchTranslate (fneg (X c), Z c) outline))
               depth) in
  (forall p,
      make_bushing k s = Ok p ->
      history p
      = (EmptyPart,
     [Union (Cylinder (half (bushing_od s)) (bushing_length s)
                      (CENTER, CENTER, MIN));
      Union (Translate
               (lit 0, lit 0,
                pymin (half (bushing_length s)) (half (flag_height s)))
               (Rotate AxisY (lit 90)
                  (Cone (pymin (half (bushing_od s)) (half (bushing_length s)))
                        (half (flag_thickness s)) offset
                        (CENTER, CENTER, MIN))));
      Union body;
      Union (front outline_top);
      Union (front outline_bottom);
      Union (back outline_top);
      Union (back outline_bottom);
      Subtract (Cylinder (half (bushing_id s)) (bushing_length s)
                         (CENTER, CENTER, MIN))]))
  /\ (quiet k ->
      Forall (fun sk => is_sketch k sk = true)
        [OnPlane PlaneXZ (SketchTranslate (X c, Z c) outline_top);
         OnPlane PlaneXZ (SketchTranslate (X c, Z c) outline_bottom);
         OnPlane PlaneXZ (SketchTranslate (fneg (X c), Z c) outline_top);
         OnPlane PlaneXZ (SketchTranslate (fneg (X c), Z c) outline_bottom)] ->
      exists p, make_bushing k s = Ok p).
Proof.
  cbv zeta. split.
  - intros p E. apply make_bushing_ok in E. destruct E as [-> _].
    reflexivity.
  - intros Hq Hs. exists (bushing_part k s).
    now apply make_bushing_returns.
Qed.

Lemma pymin_cases (a b : num) :
  (fltb b a = true -> pymin a b = b) /\ (fltb b a = false -> pymin a b = a).
Proof. unfold pymin; split; intros E; now rewrite E. Qed.

(** C5. The stem, the second solid united into a part that is returned, is
    a cone with
    bottom radius [min(bushing_od / 2, bushing_length / 2)], top radius
    [flag_thickness / 2] and height
    [flag_stem_length_radial + bushing_od / 2], turned by 90 degrees about
    the Y axis and then moved along z by
    [min(bushing_length / 2, flag_height / 2)]; each [min] is one of its
    two arguments, the second when it is strictly smaller.  A part is
    returned whenever no call raises and the four outlines pass the
    assertion of the loops. *)
Theorem stem_is_tapered_cone (k : Kernel num) (s : BushingSpec num) :
  (forall p,
      make_bushing k s = Ok p ->
      nth_error (snd (history p)) 1 = Some (Union (flag_stem s)))
  /\ (quiet k ->
      Forall (fun sk => is_sketch k sk = true) (placed_outlines k s) ->
      exists p, make_bushing k s = Ok p)
  /\ flag_stem s
     = Translate
         (lit 0, lit 0,
          pymin (fdiv (bushing_length s) (lit 2)) (fdiv (flag_height s) (lit 2)))
         (Rotate AxisY (lit 90)
            (Cone (pymin (fdiv (bushing_od s) (lit 2))
                         (fdiv (bushing_length s) (lit 2)))
                  (fdiv (flag_thickness s) (lit 2))
                  (fadd (flag_stem_length_radial s)
                        (fdiv (bushing_od s) (lit 2)))
                  (CENTER, CENTER, MIN)))
  /\ (forall a b : num,
         (fltb b a = true -> pymin a b = b) /\
         (fltb b a = false -> pymin a b = a)).
Proof.
  split.
  { intros p E. apply make_bushing_ok in E. destruct E as [-> _].
    reflexivity. }
  split.
  { intros Hq Hs. exists (bushing_part k s).
    now apply make_bushing_returns. }
  split; [reflexivity|]. exact pymin_cases.
Qed.

(** ** The outcome of a build *)

(** X15. A part that [make_bushing] returns is the value of the eight
    steps, and the four outlines placed on the flag have passed the
    assertions of lines 124 and 135.  When no call raises, the outcome is
    decided by these assertions alone: the part is returned when the four
    outlines are instances of [bd.Sketch], and the build stops with an
    [AssertionError] that carries no message when one of them is not. *)
Theorem build_outcome (k : Kernel num) (s : BushingSpec num) :
  let c := center k (flag_body_box k s) in
  let outlines :=
    [OnPlane PlaneXZ (SketchTranslate (X c, Z c) (text_2d_top s));
     OnPlane PlaneXZ (SketchTranslate (X c, Z c) (text_2d_bottom s));
     OnPlane PlaneXZ (SketchTranslate (fneg (X c), Z c) (text_2d_top s));
     OnPlane PlaneXZ (SketchTranslate (fneg (X c), Z c) (text_2d_bottom s))]
  in
  (forall p,
      make_bushing k s = Ok p ->
      p = bushing_part k s
      /\ Forall (fun sk => is_sketch k sk = true) outlines)
  /\ (quiet k ->
      Forall (fun sk => is_sketch k sk = true) outlines ->
      make_bushing k s = Ok (bushing_part k s))
  /\ (quiet k ->
      Exists (fun sk => is_sketch k sk = false) outlines ->
      make_bushing k s = Err (AssertionError [])).
Proof.
  cbv zeta. split; [exact (make_bushing_ok k s)|].
  split; [exact (make_bushing_returns (k:=k) (s:=s))|].
  intros Hq Hex.
  set (c := center k (flag_body_box k s)) in *.
  destruct (is_sketch k (OnPlane PlaneXZ
              (SketchTranslate (X c, Z c) (text_2d_top s)))) eqn:T1;
    destruct (is_sketch k (OnPlane PlaneXZ
                (SketchTranslate (X c, Z c) (text_2d_bottom s)))) eqn:T2;
    destruct (is_sketch k (OnPlane PlaneXZ
                (SketchTranslate (fneg (X c), Z c) (text_2d_top s)))) eqn:T3;
    destruct (is_sketch k (OnPlane PlaneXZ
                (SketchTranslate (fneg (X c), Z c) (text_2d_bottom s))))
      eqn:T4;
    try (exfalso;
         repeat match goal with
                | E : Exists _ _ |- _ => inversion E; subst; clear E
                end; congruence);
    clear Hex; subst c;
    unfold make_bushing, for_each, front_step, back_step, external;
    cbv zeta;
    repeat progress (rewrite ?Hq, ?T1, ?T2, ?T3, ?T4; cbn [bind negb]);
    reflexivity.
Qed.

(** ** Fields that do not reach the geometry *)

Lemma same_inputs_same_texts (s1 s2 : BushingSpec num) :
  same_geometry_inputs s1 s2 ->
  text_2d_top s1 = text_2d_top s2 /\ text_2d_bottom s1 = text_2d_bottom s2.
Proof.
  unfold same_geometry_inputs, text_2d_top, text_2d_bottom,
    effective_text_top, effective_text_bottom.
  intros (_ & _ & _ & _ & _ & Hfs & _ & _ & Ht & Hb).
  now rewrite Hfs, Ht, Hb.
Qed.

(** C9. Two specs that differ at most in [flag_stem_od], in the nominal
    [flag_length] and in [bushing_each_time] give the same part: the flag
    body takes the computed length, and [flag_stem_od] is read by the
    validator alone. *)
Theorem unread_fields_do_not_matter
    (k : Kernel num) (s1 s2 : BushingSpec num) :
  same_geometry_inputs s1 s2 ->
  make_bushing k s1 = make_bushing k s2
  /\ flag_body_box k s1
     = Translate
         (fadd (flag_stem_length_radial s1) (fdiv (bushing_od s1) (lit 2)),
          lit 0, lit 0)
         (Box (computed_flag_length k s1) (flag_thickness s1)
              (flag_height s1) (MIN, CENTER, MIN)).
Proof.
  intros Hsame. split; [|reflexivity].
  destruct (same_inputs_same_texts Hsame) as [Etop Ebot].
  destruct Hsame as (Hid & Hod & Hlen & Hft & Hfh & Hfs & Htt & Hsr & Ht & Hb).
  unfold make_bushing, front_step, back_step,
    sleeve, flag_stem, flag_body_box, bore,
    computed_flag_length, max_text_width.
  assert (Et : effective_text_top s1 = effective_text_top s2)
    by (unfold effective_text_top; now rewrite Ht, Hb).
  assert (Eb : effective_text_bottom s1 = effective_text_bottom s2)
    by (unfold effective_text_bottom; now rewrite Ht, Hb).
  now rewrite Etop, Ebot, Et, Eb, Hid, Hod, Hlen, Hft, Hfh, Hfs, Htt, Hsr.
Qed.

End Properties.

(** ** Vertical placement of the two outlines *)

Section Outlines.

Context {num : Type} `{PyNumber num}.

Variable k : Kernel num.
Hypothesis placement : vertical_placement k.

Lemma outline_edges (s : BushingSpec num) :
  top_outline_lower_edge k s = fadd (lit 0) (lit 0.6)
  /\ bottom_outline_upper_edge k s = fadd (lit 0) (lit (-0.6))
  /\ outline_gap k s
     = fsub (fadd (lit 0) (lit 0.6)) (fadd (lit 0) (lit (-0.6))).
Proof.
  destruct placement as (Hmin & Hmax & Hlo & Hhi).
  assert (Etop : top_outline_lower_edge k s = fadd (lit 0) (lit 0.6)).
  { unfold top_outline_lower_edge, text_2d_top. now rewrite Hlo, Hmin. }
  assert (Ebot : bottom_outline_upper_edge k s = fadd (lit 0) (lit (-0.6))).
  { unfold bottom_outline_upper_edge, text_2d_bottom. now rewrite Hhi, Hmax. }
  repeat split; try assumption.
  unfold outline_gap. now rewrite Etop, Ebot.
Qed.

End Outlines.

(** The distance computed in each arithmetic. *)
Example seam_distance_exact :
  (fsub (fadd (lit 0) (lit 0.6)) (fadd (lit 0) (lit (-0.6))) == 1.2)%Q.
Proof. reflexivity. Qed.

(** [0x1.3333333333333p+0] is the binary64 number written [1.2]. *)
Example seam_distance_binary64 :
  fsub (fadd (lit 0) (lit 0.6)) (fadd (lit 0) (lit (-0.6))) = 0x1.3333333333333p+0%float.
Proof. reflexivity. Qed.

Lemma reference_vertical_placement : vertical_placement Reference.kernel.
Proof.
  repeat split.
  - intros txt fs ax. now destruct ax.
  - intros txt fs ax. now destruct ax.
Qed.

(** C6, as the code has it.  Both outlines are rendered at
    [text_font_size].  The top one is aligned by its lower edge and moved up
    by 0.6, the bottom one is aligned by its upper edge and moved down by
    0.6: with an engine that follows the placement conventions, the lower
    edge of the top outline lies at 0.6 and the upper edge of the bottom
    outline at -0.6, each 0.6 away from the seam, so the two are 1.2 apart.
    Every relief places the seam at the height of the centre of the flag
    body.  (Stated in exact arithmetic; [outline_edges] gives the edges in
    any arithmetic and [seam_distance_binary64] the distance in binary64.) *)
Theorem outlines_straddle_seam (k : Kernel Q) (s : BushingSpec Q) :
  vertical_placement k ->
  text_2d_top s
  = SketchTranslate (lit 0, lit 0.6)
      (Text (effective_text_top s) (text_font_size s) (CENTER, MIN))
  /\ text_2d_bottom s
     = SketchTranslate (lit 0, lit (-0.6))
         (Text (effective_text_bottom s) (text_font_size s) (CENTER, MAX))
  /\ (top_outline_lower_edge k s == 0.6)%Q
  /\ (bottom_outline_upper_edge k s == -0.6)%Q
  /\ (outline_gap k s == 1.2)%Q
  /\ (forall text_2d,
         front_relief k s text_2d
         = Extrude
             (OnPlane PlaneXZ
                (SketchTranslate
                   (X (center k (flag_body_box k s)),
                    Z (center k (flag_body_box k s))) text_2d))
             (fadd (text_thickness s) (fdiv (flag_thickness s) (lit 2))))
  /\ (forall text_2d,
         back_relief k s text_2d
         = Rotate AxisZ (lit 180)
             (Extrude
                (OnPlane PlaneXZ
                   (SketchTranslate
                      (fneg (X (center k (flag_body_box k s))),
                       Z (center k (flag_body_box k s))) text_2d))
                (fadd (text_thickness s) (fdiv (flag_thickness s) (lit 2))))).
Proof.
  intros Hk.
  destruct (outline_edges Hk s) as (Etop & Ebot & Egap).
  rewrite Etop, Ebot, Egap.
  repeat split.
Qed.

(** The sleeve and the bore have the same centre in the reference
    engine. *)
Lemma bore_concentric_reference (s : BushingSpec Q) :
  (X (Reference.center_of (bore s)) == X (Reference.center_of (sleeve s)))%Q
  /\ (Y (Reference.center_of (bore s)) == Y (Reference.center_of (sleeve s)))%Q
  /\ (Z (Reference.center_of (bore s)) == Z (Reference.center_of (sleeve s)))%Q.
Proof.
  unfold bore, sleeve; cbn -[Qdiv Qmult Qplus Qopp].
  unfold Reference.middle; cbn [fst snd].
  repeat split; try reflexivity; unfold Qdiv; ring.
Qed.

(** * Properties of the driver *)

Section Runs.

Context {num : Type} `{PyNumber num}.

Variable k : Kernel num.

(** An iteration that ends normally. *)
Lemma loop_body_ok (i : nat) (kw : Overrides num) (p : Part num)
    (tr : list (effect num)) :
  loop_body k i kw = (Ok p, tr) ->
  exists spec,
    BushingSpec_init kw = Ok spec
    /\ make_bushing k spec = Ok (bushing_part k spec)
    /\ raises k (NewPart (placed k i spec)) = None
    /\ raises k (ShowPart (placed k i spec)) = None
    /\ is_part_compound_or_solid k (placed k i spec) = true
    /\ raises k (ExportStlFile (placed k i spec)
                   (file_stem_of i kw ++ ".stl")%string) = None
    /\ p = placed k i spec
    /\ tr = [Show p;
             ExportStl p (file_stem_of i kw ++ ".stl")%string;
             LogInfo ("Exported '" ++ file_stem_of i kw ++ ".stl'")%string].
Proof.
  unfold loop_body, external.
  destruct (BushingSpec_init kw) as [spec|e]; [|discriminate].
  destruct (make_bushing k spec) as [built|e] eqn:Eb; [|discriminate].
  destruct (make_bushing_ok _ _ Eb) as [-> _].
  fold (placed k i spec).
  destruct (raises k (NewPart (placed k i spec))) eqn:Hn; [discriminate|].
  destruct (raises k (ShowPart (placed k i spec))) eqn:Hs; [discriminate|].
  destruct (is_part_compound_or_solid k (placed k i spec)) eqn:Hc;
    cbn [negb]; [|discriminate].
  destruct (raises k (ExportStlFile (placed k i spec)
                        (file_stem_of i kw ++ ".stl")%string)) eqn:He;
    [discriminate|].
  intros E. injection E as <- <-. exists spec.
  repeat split; assumption.
Qed.

Lemma loop_body_ok_iff (i : nat) (kw : Overrides num) :
  entry_ok k i kw <-> exists p, fst (loop_body k i kw) = Ok p.
Proof.
  split.
  - intros (spec & Einit & Eb & Hn & Hs & Hc & He).
    unfold loop_body, external. rewrite Einit, Eb.
    fold (placed k i spec). rewrite Hn, Hs, Hc. cbn [negb].
    rewrite He. now exists (placed k i spec).
  - intros (p & Hp).
    destruct (loop_body k i kw) as [r tr] eqn:E. cbn [fst] in Hp. subst r.
    destruct (loop_body_ok _ _ E)
      as (spec & Einit & Eb & Hn & Hs & Hc & He & _).
    now exists spec.
Qed.

(** An iteration that raises has exported nothing. *)
Lemma loop_body_err (i : nat) (kw : Overrides num) (e : exn num)
    (tr : list (effect num)) :
  loop_body k i kw = (Err e, tr) -> exported_names tr = [].
Proof.
  unfold loop_body, external.
  destruct (BushingSpec_init kw) as [spec|e0];
    [|intros E; now injection E as _ <-].
  destruct (make_bushing k spec) as [built|e0];
    [|intros E; now injection E as _ <-].
  match goal with |- context [raises k (NewPart ?t)] =>
    destruct (raises k (NewPart t)); [intros E; now injection E as _ <-|];
    destruct (raises k (ShowPart t)); [intros E; now injection E as _ <-|];
    destruct (is_part_compound_or_solid k t); cbn [negb];
      [|intros E; now injection E as _ <-]
  end.
  match goal with |- context [raises k ?c] => destruct (raises k c) end;
    [intros E; now injection E as _ <- | discriminate].
Qed.

Lemma exported_names_app (tr1 tr2 : list (effect num)) :
  exported_names (tr1 ++ tr2) = exported_names tr1 ++ exported_names tr2.
Proof. unfold exported_names. apply flat_map_app. Qed.

(** A loop that ends normally has run every iteration to its end. *)
Lemma loop_ok (l : list (Overrides num)) :
  forall (i : nat) (part r : option (Part num)) (tr : list (effect num)),
    loop k i l part = (Ok r, tr) ->
    entries_ok k i l
    /\ exported_names tr = names_from i l
    /\ List.length tr = 3 * List.length l
    /\ (l = [] -> r = part)
    /\ (l <> [] -> exists p, r = Some p).
Proof.
  induction l as [|kw l IH]; intros i part r tr E.
  - cbn in E. injection E as <- <-. repeat split; try easy.
  - cbn [loop] in E.
    destruct (loop_body k i kw) as [[p|e] trb] eqn:Eb; [|discriminate].
    destruct (loop k (S i) l (Some p)) as [r' tr'] eqn:Erest.
    injection E as -> <-.
    destruct (IH _ _ _ _ Erest) as (Hok & Hnames & Hlen & Hnil & Hcons).
    assert (Hentry : entry_ok k i kw).
    { apply loop_body_ok_iff. exists p. now rewrite Eb. }
    destruct (loop_body_ok _ _ Eb) as (spec & _ & _ & _ & _ & _ & _ & _ & ->).
    split; [split; [exact Hentry | exact Hok]|].
    split.
    { rewrite exported_names_app, Hnames. reflexivity. }
    split; [rewrite length_app, Hlen; cbn [List.length]; lia|].
    split; [discriminate|].
    intros _. destruct l as [|kw' l'].
    + exists p. now apply Hnil.
    + apply Hcons. discriminate.
Qed.

(** Conversely, entries that all pass make the loop end normally. *)
Lemma loop_total (l : list (Overrides num)) :
  forall (i : nat) (part : option (Part num)),
    entries_ok k i l -> exists r tr, loop k i l part = (Ok r, tr).
Proof.
  induction l as [|kw l IH]; intros i part Hok.
  - now exists part, [].
  - destruct Hok as [Hentry Hrest]. cbn [loop].
    apply loop_body_ok_iff in Hentry. destruct Hentry as (p & Hp).
    destruct (loop_body k i kw) as [r trb]. cbn [fst] in Hp. subst r.
    destruct (IH (S i) (Some p) Hrest) as (r & tr & ->).
    eauto.
Qed.

Lemma loop_cons (i : nat) (kw : Overrides num) (rest : list (Overrides num))
    (part : option (Part num)) :
  exists r tr, loop k i (kw :: rest) part = (r, snd (loop_body k i kw) ++ tr).
Proof.
  cbn [loop]. destruct (loop_body k i kw) as [[p|e] tr]; cbn [snd].
  - destruct (loop k (S i) rest (Some p)) as [r tr']. now exists r, tr'.
  - exists (Err e), []. now rewrite app_nil_r.
Qed.

Lemma loop_app (l1 : list (Overrides num)) :
  forall (i : nat) (part0 part1 : option (Part num)) (tr1 : list (effect num))
         (l2 : list (Overrides num)),
    loop k i l1 part0 = (Ok part1, tr1) ->
    loop k i (l1 ++ l2) part0
    = (fst (loop k (i + List.length l1) l2 part1),
       tr1 ++ snd (loop k (i + List.length l1) l2 part1)).
Proof.
  induction l1 as [|kw l1 IH]; intros i part0 part1 tr1 l2 E.
  - cbn in E. injection E as <- <-. cbn [app List.length].
    rewrite Nat.add_0_r. now destruct (loop k i l2 part0).
  - cbn [loop app] in *.
    destruct (loop_body k i kw) as [[p|e] tr]; [|discriminate].
    destruct (loop k (S i) l1 (Some p)) as [r tr'] eqn:Erest.
    injection E as -> <-.
    rewrite (IH _ _ _ _ l2 Erest). cbn [List.length].
    rewrite Nat.add_succ_r, app_assoc. reflexivity.
Qed.

(** A loop over a concatenation that ends normally splits in two. *)
Lemma loop_app_ok (l1 : list (Overrides num)) :
  forall (l2 : list (Overrides num)) (i : nat) (part r : option (Part num))
         (tr : list (effect num)),
    loop k i (l1 ++ l2) part = (Ok r, tr) ->
    exists part1 tr1 tr2,
      loop k i l1 part = (Ok part1, tr1)
      /\ loop k (i + List.length l1) l2 part1 = (Ok r, tr2)
      /\ tr = tr1 ++ tr2.
Proof.
  induction l1 as [|kw l1 IH]; intros l2 i part r tr E.
  - exists part, [], tr. cbn [app List.length] in *.
    now rewrite Nat.add_0_r.
  - cbn [loop app] in *.
    destruct (loop_body k i kw) as [[p|e] trb]; [|discriminate].
    destruct (loop k (S i) (l1 ++ l2) (Some p)) as [r' tr'] eqn:Erest.
    injection E as -> <-.
    destruct (IH _ _ _ _ _ Erest) as (part1 & tr1 & tr2 & E1 & E2 & ->).
    rewrite E1. exists part1, (trb ++ tr1), tr2.
    cbn [List.length]. rewrite Nat.add_succ_r.
    now rewrite app_assoc.
Qed.

(** A loop that raises stops at the first entry that fails. *)
Lemma loop_err (l : list (Overrides num)) :
  forall (i : nat) (part : option (Part num)) (e : exn num)
         (tr : list (effect num)),
    loop k i l part = (Err e, tr) ->
    exists l1 kw l2 part1 tr1 trb,
      l = l1 ++ kw :: l2
      /\ loop k i l1 part = (Ok part1, tr1)
      /\ loop_body k (i + List.length l1) kw = (Err e, trb)
      /\ tr = tr1 ++ trb.
Proof.
  induction l as [|kw l IH]; intros i part e tr E.
  - discriminate.
  - cbn [loop] in E.
    destruct (loop_body k i kw) as [[p|e'] trb] eqn:Eb.
    + destruct (loop k (S i) l (Some p)) as [r' tr'] eqn:Erest.
      injection E as -> <-.
      destruct (IH _ _ _ _ Erest)
        as (l1 & kw' & l2 & part1 & tr1 & trb' & -> & E1 & E2 & ->).
      exists (kw :: l1), kw', l2, part1, (trb ++ tr1), trb'.
      cbn [loop app List.length]. rewrite Eb, E1, Nat.add_succ_r.
      now rewrite app_assoc.
    + injection E as <- <-.
      exists [], kw, l, part, [], trb.
      cbn [app List.length loop]. now rewrite Nat.add_0_r, Eb.
Qed.

Lemma names_from_length (l : list (Overrides num)) (i : nat) :
  List.length (names_from i l) = List.length l.
Proof.
  revert i; induction l as [|kw l IH]; intros i; cbn;
    [reflexivity | now rewrite IH].
Qed.

(** X1. A run ends normally exactly when neither the reading of the list
    nor [mkdir] raises, the list
    is not empty and every entry runs its iteration to the end: the
    constructor returns a spec, [make_bushing] returns its part, moving and
    showing the part do not raise, the class test passes and the export
    does not raise. *)
Theorem run_succeeds_iff (l : list (Overrides num)) :
  (exists p, fst (make_many_bushings k l) = Ok p)
  <-> raises k ReadList = None /\ raises k MakeDirs = None
      /\ l <> [] /\ entries_ok k 0 l.
Proof.
  unfold make_many_bushings, external. split.
  - intros (p & Hp).
    destruct (raises k ReadList); [discriminate|].
    destruct (raises k MakeDirs); [discriminate|].
    destruct (loop k 0 l None) as [[[q|]|e] tr] eqn:E;
      cbn [fst] in Hp; try discriminate.
    destruct (loop_ok _ _ _ E) as (Hok & _ & _ & Hnil & _).
    split; [reflexivity|]. split; [reflexivity|]. split; [|exact Hok].
    intros ->. now specialize (Hnil eq_refl).
  - intros (Hr & Hm & Hne & Hok). rewrite Hr, Hm.
    destruct (loop_total _ _ None Hok) as (r & tr & E). rewrite E.
    destruct (loop_ok _ _ _ E) as (_ & _ & _ & _ & Hcons).
    destruct (Hcons Hne) as (p & ->). now exists p.
Qed.

(** X2. A run that ends normally has created the folder first and then,
    for each entry in order, shown, exported and logged its part: the files
    written are those of the entries, named by index, one per entry. *)
Theorem successful_run_exports
    (l : list (Overrides num)) (p : Part num) (tr : list (effect num)) :
  make_many_bushings k l = (Ok p, tr) ->
  List.hd_error tr = Some Mkdir
  /\ exported_names tr = names_from 0 l
  /\ List.length (exported_names tr) = List.length l
  /\ List.length tr = 1 + 3 * List.length l.
Proof.
  unfold make_many_bushings.
  destruct (external k ReadList); [|discriminate].
  destruct (external k MakeDirs); [|discriminate].
  destruct (loop k 0 l None) as [[[q|]|e] tr'] eqn:E; try discriminate.
  intros E'. injection E' as _ <-.
  destruct (loop_ok _ _ _ E) as (_ & Hnames & Hlen & _).
  repeat split.
  - exact Hnames.
  - cbn. fold (exported_names tr'). now rewrite Hnames, names_from_length.
  - cbn [List.length]. now rewrite Hlen.
Qed.

(** X3. The part a run returns is the one built from the last entry of the
    list, placed at the index of that entry. *)
Theorem run_returns_last_part
    (l : list (Overrides num)) (kw : Overrides num) (p : Part num)
    (tr : list (effect num)) :
  make_many_bushings k (l ++ [kw]) = (Ok p, tr) ->
  exists spec,
    BushingSpec_init kw = Ok spec /\ p = placed k (List.length l) spec.
Proof.
  unfold make_many_bushings.
  destruct (external k ReadList); [|discriminate].
  destruct (external k MakeDirs); [|discriminate].
  destruct (loop k 0 (l ++ [kw]) None) as [[[q|]|e] tr'] eqn:E;
    try discriminate.
  intros E'. injection E' as <- _.
  destruct (loop_app_ok _ _ _ _ E) as (part1 & tr1 & tr2 & _ & E2 & _).
  cbn [loop Nat.add] in E2.
  destruct (loop_body k (List.length l) kw) as [[q'|e] trb] eqn:Eb;
    [|discriminate].
  injection E2 as <- _.
  destruct (loop_body_ok _ _ Eb) as (spec & Einit & _ & _ & _ & _ & _ & -> & _).
  now exists spec.
Qed.

(** X4. A run that raises failed in the reading of the list or in [mkdir],
    with nothing done, or had an empty list and then
    fails at [return part], or stopped at the first entry whose iteration
    does not run to its end: the entries before it are exported, the error
    is the one that iteration raised, and what follows the entry in the
    list is never looked at. *)
Theorem run_stops_at_first_failure
    (l : list (Overrides num)) (e : exn num) (tr : list (effect num)) :
  make_many_bushings k l = (Err e, tr) ->
  (exists what,
      (raises k ReadList = Some what
       \/ (raises k ReadList = None /\ raises k MakeDirs = Some what))
      /\ e = Raised what /\ tr = [])
  \/ (raises k ReadList = None /\ raises k MakeDirs = None
      /\ l = [] /\ e = UnboundLocalError "part" /\ tr = [Mkdir])
  \/ (raises k ReadList = None /\ raises k MakeDirs = None
      /\ exists l1 kw l2 trb,
           l = l1 ++ kw :: l2
           /\ entries_ok k 0 l1
           /\ ~ entry_ok k (List.length l1) kw
           /\ loop_body k (List.length l1) kw = (Err e, trb)
           /\ exported_names tr = names_from 0 l1
           /\ (forall l2',
                  make_many_bushings k (l1 ++ kw :: l2') = (Err e, tr))).
Proof.
  unfold make_many_bushings, external.
  destruct (raises k ReadList) as [what|] eqn:Hr.
  { intros E. injection E as <- <-. left. exists what. auto. }
  destruct (raises k MakeDirs) as [what|] eqn:Hm.
  { intros E. injection E as <- <-. left. exists what. auto. }
  destruct (loop k 0 l None) as [[[q|]|e'] tr'] eqn:E; try discriminate;
    intros E'; injection E' as <- <-; right.
  - left. destruct (loop_ok _ _ _ E) as (_ & _ & Hlen & _ & Hcons).
    destruct l as [|kw l].
    + cbn in E. injection E as <-. auto.
    + destruct Hcons as (p & Hp); discriminate.
  - right. split; [reflexivity|]. split; [reflexivity|].
    destruct (loop_err _ _ _ E)
      as (l1 & kw & l2 & part1 & tr1 & trb & -> & E1 & Eb & ->).
    cbn [Nat.add] in Eb.
    destruct (loop_ok _ _ _ E1) as (Hok & Hnames & _).
    exists l1, kw, l2, trb. split; [reflexivity|]. split; [exact Hok|].
    split.
    { intros Hentry. apply loop_body_ok_iff in Hentry.
      destruct Hentry as (p & Hp). rewrite Eb in Hp. discriminate. }
    split; [exact Eb|].
    split.
    { cbn. fold (exported_names (tr1 ++ trb)).
      rewrite exported_names_app, Hnames, (loop_body_err _ _ Eb).
      apply app_nil_r. }
    intros l2'.
    rewrite (loop_app l1 0 None (kw :: l2') E1).
    cbn [loop Nat.add]. rewrite Eb. reflexivity.
Qed.

End Runs.

(** ** File names *)

Lemma string_append_assoc (a b c : string) :
  ((a ++ b) ++ c = a ++ (b ++ c))%string.
Proof. induction a as [|x a IH]; cbn; [reflexivity | now rewrite IH]. Qed.

Lemma string_append_nil_r (a : string) : (a ++ EmptyString)%string = a.
Proof. induction a as [|x a IH]; cbn; [reflexivity | now rewrite IH]. Qed.

Lemma leading_digits_uint (d : Decimal.uint) (rest : string) :
  leading_digits (NilEmpty.string_of_uint d ++ rest)
  = (NilEmpty.string_of_uint d ++ leading_digits rest)%string.
Proof.
  induction d as [|d IH|d IH|d IH|d IH|d IH|d IH|d IH|d IH|d IH|d IH];
    cbn; [reflexivity | now rewrite IH ..].
Qed.

Lemma leading_digits_index (i : nat) (rest : string) :
  leading_digits (str_of_nat i ++ rest)
  = (str_of_nat i ++ leading_digits rest)%string.
Proof.
  unfold str_of_nat, NilZero.string_of_uint.
  destruct (Nat.to_uint i) eqn:E; try (rewrite <- E; apply leading_digits_uint);
    try reflexivity;
    apply (leading_digits_uint _ rest).
Qed.

(** Printing an index and reading it back. *)
Lemma index_round_trip (i : nat) :
  option_map Nat.of_uint (NilZero.uint_of_string (str_of_nat i)) = Some i.
Proof.
  unfold str_of_nat.
  destruct (NilZero.usu_gen (Nat.to_uint i)) as [E | E]; rewrite E; cbn.
  - now rewrite DecimalNat.Unsigned.of_to.
  - f_equal.
    destruct (Nat.to_uint i) eqn:Ei;
      try (rewrite NilZero.usu in E by discriminate; injection E as E;
           rewrite <- (DecimalNat.Unsigned.of_to i), Ei, E; reflexivity).
    now rewrite <- (DecimalNat.Unsigned.of_to i), Ei.
Qed.

Section FileNames.

Context {num : Type} `{PyNumber num}.

Lemma file_name_shape (i : nat) (kw : Overrides num) :
  exists rest,
    (file_stem_of i kw ++ ".stl")%string
    = ("bushing_" ++ (str_of_nat i ++ rest))%string
    /\ leading_digits rest = EmptyString.
Proof.
  unfold file_stem_of.
  destruct (o_text_top kw) as [top|]; [destruct (o_text_bottom kw) as [bottom|]|].
  - exists (" - " ++ top ++ " to " ++ bottom ++ ".stl")%string.
    split; [|reflexivity].
    now rewrite !string_append_assoc.
  - exists ".stl"%string. split; [|reflexivity].
    now rewrite !string_append_assoc.
  - exists ".stl"%string. split; [|reflexivity].
    now rewrite !string_append_assoc.
Qed.

Lemma index_of_file_name (i : nat) (kw : Overrides num) :
  index_of_name (file_stem_of i kw ++ ".stl")%string = Some i.
Proof.
  destruct (file_name_shape i kw) as (rest & -> & Hrest).
  unfold index_of_name. cbn [string_drop append].
  rewrite leading_digits_index, Hrest, string_append_nil_r.
  apply index_round_trip.
Qed.

Lemma names_from_indices (l : list (Overrides num)) :
  forall i,
    map index_of_name (names_from i l) = map Some (seq i (List.length l)).
Proof.
  induction l as [|kw l IH]; intros i; cbn [names_from map List.length seq].
  - reflexivity.
  - now rewrite index_of_file_name, IH.
Qed.

Lemma names_from_NoDup (l : list (Overrides num)) (i : nat) :
  NoDup (names_from i l).
Proof.
  apply (NoDup_map_inv index_of_name). rewrite names_from_indices.
  generalize (seq_NoDup (List.length l) i).
  induction 1 as [|x xs Hx _ IH]; cbn [map]; constructor; [|exact IH].
  intros Hin. apply in_map_iff in Hin. destruct Hin as (y & E & Hy).
  injection E as ->. contradiction.
Qed.

(** X6. The index of an entry can be read back from the name of its file,
    whatever its labels; so the files of the entries of a list are pairwise
    different, and no run, ended normally or not, writes the same file
    twice. *)
Theorem file_names_identify_entries
    (k : Kernel num) (l : list (Overrides num)) :
  (forall i (kw : Overrides num),
      index_of_name (file_stem_of i kw ++ ".stl")%string = Some i)
  /\ (forall i j (kw kw' : Overrides num),
         (file_stem_of i kw ++ ".stl")%string
         = (file_stem_of j kw' ++ ".stl")%string -> i = j)
  /\ NoDup (names_from 0 l)
  /\ NoDup (exported_names (snd (make_many_bushings k l))).
Proof.
  split; [exact index_of_file_name|].
  split.
  { intros i j kw kw' E. apply (f_equal index_of_name) in E.
    rewrite !index_of_file_name in E. now injection E. }
  split; [apply names_from_NoDup|].
  unfold make_many_bushings.
  destruct (external k ReadList); [|constructor].
  destruct (external k MakeDirs); [|constructor].
  destruct (loop k 0 l None) as [[r|e] tr] eqn:E; cbn [snd];
    cbn; fold (exported_names tr).
  - destruct (loop_ok _ _ _ _ E) as (_ & -> & _). apply names_from_NoDup.
  - destruct (loop_err _ _ _ _ E)
      as (l1 & kw & l2 & part1 & tr1 & trb & -> & E1 & Eb & ->).
    destruct (loop_ok _ _ _ _ E1) as (_ & Hnames & _).
    rewrite exported_names_app, Hnames, (loop_body_err _ _ _ Eb), app_nil_r.
    apply names_from_NoDup.
Qed.

End FileNames.

(** * Further properties of the constructor and of the layout *)

Section Constructor.

Context {num : Type} `{PyNumber num}.

(** What the constructor can raise. *)
Lemma init_error_kind (kw : Overrides num) (e : exn num) :
  BushingSpec_init kw = Err e ->
  ((o_unknown kw <> [] \/ o_bushing_length kw = None)
   /\ exists m, e = TypeError m)
  \/ (o_unknown kw = [] /\ o_bushing_length kw <> None
      /\ exists m, e = AssertionError m).
Proof.
  unfold BushingSpec_init.
  destruct (o_unknown kw) as [|key rest].
  - destruct (o_bushing_length kw) as [len|].
    + match goal with |- context [post_init ?x] =>
        unfold post_init;
        destruct (fgtb (bushing_od x) (bushing_id x));
        destruct (fltb (flag_stem_od x) (bushing_od x)) end;
        cbn [negb bind]; intros E; try discriminate;
        injection E as <-; right;
        (split; [reflexivity|]); (split; [discriminate|]); eauto.
    + intros E; injection E as <-. left; split; eauto.
  - intros E; injection E as <-. left; split; [left; discriminate | eauto].
Qed.

(** X7. For an entry whose values have the annotated types, the
    constructor raises a [TypeError] exactly when the entry has a key that
    names no field or lacks [bushing_length], whatever the diameters are;
    otherwise it returns a spec that has the given length and satisfies
    both checks, or raises an [AssertionError].  A spec that is returned
    holds every value given and the default of every field left out. *)
Theorem constructor_outcomes (kw : Overrides num) :
  ((o_unknown kw <> [] \/ o_bushing_length kw = None)
   <-> exists m, BushingSpec_init kw = Err (TypeError m))
  /\ (forall len,
         o_unknown kw = [] ->
         o_bushing_length kw = Some len ->
         (exists s, BushingSpec_init kw = Ok s /\ bushing_length s = len
                    /\ valid s)
         \/ (exists m, BushingSpec_init kw = Err (AssertionError m)))
  /\ (forall s,
         BushingSpec_init kw = Ok s ->
         o_unknown kw = []
         /\ bushing_id s = or_default (o_bushing_id kw) (lit 3.2)
         /\ bushing_od s = or_default (o_bushing_od kw) (lit 6.4)
         /\ o_bushing_length kw = Some (bushing_length s)
         /\ bushing_each_time s = or_default (o_bushing_each_time kw) 4%Z
         /\ flag_thickness s = or_default (o_flag_thickness kw) (lit 2.8)
         /\ flag_length s = or_default (o_flag_length kw) (lit 15)
         /\ flag_height s = or_default (o_flag_height kw) (lit 12)
         /\ text_font_size s = or_default (o_text_font_size kw) (lit 5)
         /\ text_thickness s = or_default (o_text_thickness kw) (lit 1)
         /\ flag_stem_length_radial s
            = or_default (o_flag_stem_length_radial kw) (lit 4)
         /\ flag_stem_od s = or_default (o_flag_stem_od kw) (lit 3.5)
         /\ text_top s = or_default (o_text_top kw) EmptyString
         /\ text_bottom s = or_default (o_text_bottom kw) EmptyString).
Proof.
  split; [split|split].
  - intros Hmiss. unfold BushingSpec_init.
    destruct (o_unknown kw) as [|key rest]; [|eauto].
    destruct Hmiss as [Hu | Hnone]; [now destruct Hu|].
    rewrite Hnone. eauto.
  - intros (m & E).
    destruct (init_error_kind _ E) as [[Hmiss _] | (_ & _ & (m' & Hm))];
      [exact Hmiss | discriminate].
  - intros len Hu Hlen.
    destruct (BushingSpec_init kw) as [s|e] eqn:E.
    + left. exists s. split; [reflexivity|].
      split; [|now apply (init_ok_valid kw)].
      unfold BushingSpec_init in E. rewrite Hu, Hlen in E.
      match type of E with context [post_init ?x] =>
        destruct (post_init x) end; cbn [bind] in E; [|discriminate].
      now injection E as <-.
    + right.
      destruct (init_error_kind _ E) as [[Hmiss _] | (_ & _ & (m & ->))];
        [|eauto].
      destruct Hmiss as [Hu' | Hnone]; congruence.
  - intros s E. unfold BushingSpec_init in E.
    destruct (o_unknown kw); [|discriminate].
    destruct (o_bushing_length kw) as [len|]; [|discriminate].
    match type of E with context [post_init ?x] =>
      destruct (post_init x) end; cbn [bind] in E; [|discriminate].
    injection E as <-. repeat split.
Qed.

(** X8. The checks of [__post_init__] look at [bushing_id], [bushing_od]
    and [flag_stem_od] only: specs that agree on these three are accepted
    or rejected alike, with the same error, whatever their lengths, flag
    sizes, font size and labels are. *)
Theorem validation_reads_three_fields (s1 s2 : BushingSpec num) :
  bushing_id s1 = bushing_id s2 ->
  bushing_od s1 = bushing_od s2 ->
  flag_stem_od s1 = flag_stem_od s2 ->
  post_init s1 = post_init s2
  /\ (BushingSpec_init (given s1) = Ok s1
      <-> BushingSpec_init (given s2) = Ok s2).
Proof.
  intros Hid Hod Hstem.
  assert (E : post_init s1 = post_init s2)
    by (unfold post_init; now rewrite Hid, Hod, Hstem).
  split; [exact E|].
  rewrite !init_given, E.
  destruct (post_init s2) as [[]|e]; cbn [bind]; split; intros E';
    try reflexivity; discriminate.
Qed.

(** X9. On the flag, with lengths counted in code points as [len] does:
    the top text has at least one character, the bottom text has none
    exactly when neither label has one, the connector adds three characters
    in all, and it goes to the label that is not the longer one, so that
    the longer of the two texts has [max(min(m, n) + 3, max(m, n))]
    characters for labels of [m] and [n] characters. *)
Theorem layout_lengths (top bottom : string) :
  py_len (fst (label_layout top bottom))
  + py_len (snd (label_layout top bottom))
  = py_len top + py_len bottom + 3
  /\ 1 <= py_len (fst (label_layout top bottom))
  /\ fst (label_layout top bottom) <> EmptyString
  /\ (py_len (snd (label_layout top bottom)) = 0
      <-> py_len top = 0 /\ py_len bottom = 0)
  /\ Nat.max (py_len (fst (label_layout top bottom)))
             (py_len (snd (label_layout top bottom)))
     = Nat.max (Nat.min (py_len top) (py_len bottom) + 3)
               (Nat.max (py_len top) (py_len bottom)).
Proof.
  destruct (Nat.le_gt_cases (py_len top) (py_len bottom)) as [Hle | Hgt].
  - rewrite (label_layout_le _ _ Hle); cbn [fst snd].
    rewrite py_len_append.
    change (py_len " to") with 3.
    split; [lia|]. split; [lia|]. split; [now destruct top|].
    split; [lia|lia].
  - rewrite (label_layout_gt _ _ Hgt); cbn [fst snd].
    rewrite py_len_append.
    change (py_len "to ") with 3.
    split; [lia|]. split; [lia|].
    split; [intros ->; cbn in Hgt; lia|].
    split; [lia|lia].
Qed.

End Constructor.

(** X13. The defaults pass the checks of the constructor: an entry that
    gives [bushing_length] only is accepted for every value of the length,
    in exact arithmetic and in binary64, and gets empty labels. *)
Theorem defaults_are_accepted :
  (forall len : Q,
      BushingSpec_init (only_length len)
      = Ok (Sample.spec_of len EmptyString EmptyString))
  /\ (forall len : float,
         BushingSpec_init (only_length len)
         = Ok (Sample.spec_of len EmptyString EmptyString)).
Proof. split; intros len; reflexivity. Qed.

(** * Not-a-number in binary64 *)

Lemma SFeqb_self (f : SpecFloat.spec_float) :
  SpecFloat.SFeqb f f = false -> f = SpecFloat.S754_nan.
Proof.
  unfold SpecFloat.SFeqb.
  destruct f as [s|s| |s m e]; cbn; try reflexivity.
  - discriminate.
  - destruct s; discriminate.
  - rewrite Z.compare_refl, Pos.compare_cont_refl.
    destruct s; discriminate.
Qed.

Lemma nan_never_less (x y : float) :
  PrimFloat.is_nan x = true ->
  PrimFloat.ltb x y = false /\ PrimFloat.ltb y x = false.
Proof.
  unfold PrimFloat.is_nan. rewrite eqb_spec, !ltb_spec. intros E.
  apply negb_true_iff, SFeqb_self in E. rewrite E.
  unfold SpecFloat.SFltb. cbn.
  split; [reflexivity|]. now destruct (FloatOps.Prim2SF y).
Qed.

(** X14. In binary64 a spec that the constructor returns has no NaN among
    [bushing_id], [bushing_od] and [flag_stem_od]: a comparison with NaN is
    false, so the assertion that reads the field fails. *)
Theorem nan_diameters_are_rejected
    (kw : Overrides float) (s : BushingSpec float) :
  BushingSpec_init kw = Ok s ->
  PrimFloat.is_nan (bushing_id s) = false
  /\ PrimFloat.is_nan (bushing_od s) = false
  /\ PrimFloat.is_nan (flag_stem_od s) = false.
Proof.
  intros E. destruct (init_ok_valid kw E) as [Hod Hstem].
  unfold fgtb in Hod. cbn in Hod, Hstem.
  repeat split.
  - destruct (PrimFloat.is_nan (bushing_id s)) eqn:N; [|reflexivity].
    destruct (nan_never_less (bushing_id s) (bushing_od s) N) as [Hlt _].
    congruence.
  - destruct (PrimFloat.is_nan (bushing_od s)) eqn:N; [|reflexivity].
    destruct (nan_never_less (bushing_od s) (bushing_id s) N) as [_ Hlt].
    congruence.
  - destruct (PrimFloat.is_nan (flag_stem_od s)) eqn:N; [|reflexivity].
    destruct (nan_never_less (flag_stem_od s) (bushing_od s) N) as [Hlt _].
    congruence.
Qed.

(** * Comparisons in binary64 *)

Lemma SFcompare_self (f : SpecFloat.spec_float) :
  f <> SpecFloat.S754_nan -> SpecFloat.SFcompare f f = Some Eq.
Proof.
  destruct f as [s|s| |s m e]; cbn; intros Hn; try reflexivity.
  - now destruct s.
  - now destruct Hn.
  - rewrite Z.compare_refl, Pos.compare_cont_refl. now destruct s.
Qed.

Lemma SFcompare_antisym (f1 f2 : SpecFloat.spec_float) :
  SpecFloat.SFcompare f2 f1
  = option_map CompOpp (SpecFloat.SFcompare f1 f2).
Proof.
  destruct f1 as [s1|s1| |s1 m1 e1], f2 as [s2|s2| |s2 m2 e2]; cbn;
    try reflexivity;
    try (destruct s1; reflexivity); try (destruct s2; reflexivity);
    try (destruct s1, s2; reflexivity).
  destruct s1, s2; try reflexivity;
    rewrite (Z.compare_antisym e1 e2);
    destruct (e1 ?= e2)%Z; cbn; try reflexivity;
    rewrite (Pos.compare_cont_antisym m1 m2 Eq); cbn;
    now rewrite ?CompOpp_involutive.
Qed.

Lemma is_nan_spec (x : float) :
  PrimFloat.is_nan x = false <-> Prim2SF x <> SpecFloat.S754_nan.
Proof.
  unfold PrimFloat.is_nan. rewrite eqb_spec. unfold SpecFloat.SFeqb. split.
  - intros E Hn. rewrite Hn in E. discriminate.
  - intros Hn. now rewrite (SFcompare_self Hn).
Qed.

(** [x <= x] holds exactly when [x] is a number. *)
Lemma leb_self (x : float) :
  PrimFloat.leb x x = true <-> PrimFloat.is_nan x = false.
Proof.
  rewrite is_nan_spec, leb_spec. unfold SpecFloat.SFleb. split.
  - intros E Hn. rewrite Hn in E. discriminate.
  - intros Hn. now rewrite (SFcompare_self Hn).
Qed.

Lemma ltb_leb (a b : float) :
  PrimFloat.ltb a b = true -> PrimFloat.leb a b = true.
Proof.
  rewrite ltb_spec, leb_spec. unfold SpecFloat.SFltb, SpecFloat.SFleb.
  now destruct (SpecFloat.SFcompare (Prim2SF a) (Prim2SF b)) as [[]|].
Qed.

Lemma SFcompare_numbers (f1 f2 : SpecFloat.spec_float) :
  f1 <> SpecFloat.S754_nan -> f2 <> SpecFloat.S754_nan ->
  SpecFloat.SFcompare f1 f2 <> None.
Proof.
  destruct f1 as [s1|s1| |s1 m1 e1], f2 as [s2|s2| |s2 m2 e2]; cbn;
    intros H1 H2; try discriminate; try (now destruct H1);
    try (now destruct H2).
Qed.

(** Two numbers are comparable. *)
Lemma not_ltb_leb (a b : float) :
  PrimFloat.is_nan a = false -> PrimFloat.is_nan b = false ->
  PrimFloat.ltb a b = false -> PrimFloat.leb b a = true.
Proof.
  rewrite !is_nan_spec, ltb_spec, leb_spec.
  unfold SpecFloat.SFltb, SpecFloat.SFleb. intros Ha Hb.
  rewrite (SFcompare_antisym (Prim2SF a) (Prim2SF b)).
  pose proof (SFcompare_numbers Ha Hb) as Hc.
  destruct (SpecFloat.SFcompare (Prim2SF a) (Prim2SF b)) as [[]|]; cbn;
    congruence.
Qed.

Lemma leb_numbers (a b : float) :
  PrimFloat.leb a b = true ->
  PrimFloat.is_nan a = false /\ PrimFloat.is_nan b = false.
Proof.
  rewrite !is_nan_spec, leb_spec. unfold SpecFloat.SFleb. intros E.
  split; intros Hn; rewrite Hn in E;
    [|destruct (Prim2SF a)]; discriminate.
Qed.

(** Python's [min] and [max] of two numbers are bounds of both, and each
    is one of its arguments; a NaN in second place is ignored. *)
Lemma pymin_binary64 (a b : float) :
  (pymin a b = a \/ pymin a b = b)
  /\ (PrimFloat.is_nan a = false -> PrimFloat.is_nan b = false ->
      PrimFloat.leb (pymin a b) a = true
      /\ PrimFloat.leb (pymin a b) b = true)
  /\ (PrimFloat.is_nan b = true -> pymin a b = a).
Proof.
  unfold pymin; cbn. destruct (PrimFloat.ltb b a) eqn:E.
  - split; [now right|]. split.
    + intros Ha Hb. split; [now apply ltb_leb | now apply leb_self].
    + intros Hb. destruct (nan_never_less b a Hb) as [Hlt _]. congruence.
  - split; [now left|]. split; [|reflexivity].
    intros Ha Hb. split; [now apply leb_self | now apply not_ltb_leb].
Qed.

Lemma pymax_binary64 (a b : float) :
  (pymax a b = a \/ pymax a b = b)
  /\ (PrimFloat.is_nan a = false -> PrimFloat.is_nan b = false ->
      PrimFloat.leb a (pymax a b) = true
      /\ PrimFloat.leb b (pymax a b) = true)
  /\ (PrimFloat.is_nan b = true -> pymax a b = a).
Proof.
  unfold pymax, fgtb; cbn. destruct (PrimFloat.ltb a b) eqn:E.
  - split; [now right|]. split.
    + intros Ha Hb. split; [now apply ltb_leb | now apply leb_self].
    + intros Hb. destruct (nan_never_less b a Hb) as [_ Hlt]. congruence.
  - split; [now left|]. split; [|reflexivity].
    intros Ha Hb. split; [now apply leb_self | now apply not_ltb_leb].
Qed.

(** X11. In binary64 the two [min] of the stem are minima of numbers: when
    the two halves compared are not NaN, the base of the cone is no wider
    than the sleeve and no wider than the sleeve is long, and the stem sits
    no higher than the middle of the sleeve and no higher than the middle
    of the flag.  A NaN in second place is ignored: with a [bushing_length]
    whose half is NaN the base takes the radius of the sleeve. *)
Theorem stem_is_bounded (s : BushingSpec float) :
  exists z base top h,
    flag_stem s
    = Translate (lit 0, lit 0, z)
        (Rotate AxisY (lit 90) (Cone base top h (CENTER, CENTER, MIN)))
    /\ (PrimFloat.is_nan (bushing_od s / 2) = false ->
        PrimFloat.is_nan (bushing_length s / 2) = false ->
        PrimFloat.leb base (bushing_od s / 2) = true
        /\ PrimFloat.leb base (bushing_length s / 2) = true)
    /\ (PrimFloat.is_nan (bushing_length s / 2) = false ->
        PrimFloat.is_nan (flag_height s / 2) = false ->
        PrimFloat.leb z (bushing_length s / 2) = true
        /\ PrimFloat.leb z (flag_height s / 2) = true)
    /\ (base = (bushing_od s / 2)%float \/ base = (bushing_length s / 2)%float)
    /\ (z = (bushing_length s / 2)%float \/ z = (flag_height s / 2)%float)
    /\ (PrimFloat.is_nan (bushing_length s / 2) = true ->
        base = (bushing_od s / 2)%float).
Proof.
  exists (pymin (bushing_length s / 2) (flag_height s / 2))%float,
    (pymin (bushing_od s / 2) (bushing_length s / 2))%float,
    (flag_thickness s / 2)%float,
    (flag_stem_length_radial s + bushing_od s / 2)%float.
  destruct (pymin_binary64 (bushing_od s / 2) (bushing_length s / 2))
    as (Hb1 & Hb2 & Hb3).
  destruct (pymin_binary64 (bushing_length s / 2) (flag_height s / 2))
    as (Hz1 & Hz2 & _).
  split; [reflexivity|]. repeat split; auto; try (now apply Hb2);
    now apply Hz2.
Qed.

(** * Addition in binary64 *)

Module Binary64Facts.

Import Binary64.
Local Open Scope Z_scope.
Local Unset Implicit Arguments.

Lemma fexp_eq (e : BinNums.Z) : fexp prec emax e = Z.max (e - 53) (-1074).
Proof. reflexivity. Qed.

Lemma digits2_pos_bounds (m : positive) :
  2 ^ (Zpos (digits2_pos m) - 1) <= Zpos m < 2 ^ Zpos (digits2_pos m).
Proof.
  induction m as [m IH|m IH|]; cbn [digits2_pos];
    rewrite ?Pos2Z.inj_succ.
  - replace (Z.succ (Zpos (digits2_pos m)) - 1)
      with (Z.succ (Zpos (digits2_pos m) - 1)) by lia.
    rewrite !Z.pow_succ_r by lia.
    generalize dependent (2 ^ (Zpos (digits2_pos m) - 1)).
    generalize dependent (2 ^ Zpos (digits2_pos m)). intros; lia.
  - replace (Z.succ (Zpos (digits2_pos m)) - 1)
      with (Z.succ (Zpos (digits2_pos m) - 1)) by lia.
    rewrite !Z.pow_succ_r by lia.
    generalize dependent (2 ^ (Zpos (digits2_pos m) - 1)).
    generalize dependent (2 ^ Zpos (digits2_pos m)). intros; lia.
  - cbn. lia.
Qed.

Lemma digits2_log2 (m : positive) :
  Zpos (digits2_pos m) = Z.log2 (Zpos m) + 1.
Proof.
  pose proof (digits2_pos_bounds m) as H.
  assert (E : Z.log2 (Zpos m) = Zpos (digits2_pos m) - 1).
  { apply Z.log2_unique; [lia|].
    replace (Z.succ (Zpos (digits2_pos m) - 1)) with (Zpos (digits2_pos m))
      by lia.
    exact H. }
  lia.
Qed.

Lemma iter_xO (m d : positive) :
  Zpos (Pos.iter xO m d) = Zpos m * 2 ^ Zpos d.
Proof.
  induction d as [|d IH] using Pos.peano_ind.
  - cbn. lia.
  - rewrite Pos.iter_succ, Pos2Z.inj_xO, IH, Pos2Z.inj_succ,
      Z.pow_succ_r by lia.
    lia.
Qed.

(** [shl_align] towards a smaller exponent multiplies the mantissa. *)

Lemma shl_align_down (m : positive) (e e' : BinNums.Z) :
  e' <= e ->
  shl_align m e e' = (Z.to_pos (Zpos m * 2 ^ (e - e')), e').
Proof.
  intros H. unfold shl_align. destruct (e' - e) as [|d|d] eqn:E; try lia.
  - assert (e' = e) by lia. subst e'. rewrite Z.sub_diag. cbn.
    now rewrite Pos.mul_1_r.
  - replace (e - e') with (Zpos d) by lia.
    now rewrite <- iter_xO, Pos2Z.id.
Qed.

Lemma shl_align_up (m : positive) (e e' : BinNums.Z) :
  e <= e' -> shl_align m e e' = (m, e).
Proof.
  intros H. unfold shl_align. destruct (e' - e) as [|d|d] eqn:E;
    try reflexivity; lia.
Qed.

Lemma iter_pos_nat {A : Type} (f : A -> A) (p : positive) (x : A) :
  iter_pos f p x = Nat.iter (Pos.to_nat p) f x.
Proof.
  unfold Nat.iter. rewrite <- Pos2Nat.inj_iter. revert x.
  induction p as [p IH|p IH|]; intros x; cbn [iter_pos Pos.iter].
  - now rewrite !IH, !Pos.iter_swap.
  - now rewrite !IH.
  - reflexivity.
Qed.

Lemma shr_1_spec (m : BinNums.Z) (r s : bool) :
  0 <= m ->
  shr_1 (Build_shr_record m r s)
  = Build_shr_record (m / 2) (Z.odd m) (r || s).
Proof.
  intros H. rewrite <- Z.div2_div.
  destruct m as [|[p|p|]|p]; try reflexivity; lia.
Qed.

Lemma mod_pow2_succ (m k : BinNums.Z) :
  0 <= k ->
  m mod 2 ^ (k + 1)
  = m mod 2 ^ k + 2 ^ k * (if Z.odd (m / 2 ^ k) then 1 else 0).
Proof.
  intros Hk. rewrite Z.pow_add_r, Z.pow_1_r by lia.
  rewrite Z.rem_mul_r by lia. now rewrite Zmod_odd.
Qed.

Lemma shr_iter (m : BinNums.Z) (j : nat) :
  0 <= m ->
  Nat.iter (S j) shr_1 (Build_shr_record m false false) = shifted m j.
Proof.
  intros Hm. induction j as [|j IH].
  - cbn [Nat.iter]. rewrite shr_1_spec by assumption. unfold shifted.
    cbn [Z.of_nat]. rewrite Z.add_0_l, Z.pow_1_r, Z.pow_0_r, Z.div_1_r,
      Z.mod_1_r.
    reflexivity.
  - change (Nat.iter (S (S j)) shr_1 ?x)
      with (shr_1 (Nat.iter (S j) shr_1 x)).
    rewrite IH. unfold shifted. rewrite shr_1_spec
      by (apply Z.div_pos; [assumption|apply Z.pow_pos_nonneg; lia]).
    rewrite Nat2Z.inj_succ. unfold Z.succ.
    rewrite Z.div_div by (try apply Z.pow_pos_nonneg; lia).
    replace (2 ^ (Z.of_nat j + 1) * 2) with (2 ^ (Z.of_nat j + 1 + 1))
      by (rewrite (Z.pow_add_r 2 (Z.of_nat j + 1) 1) by lia; lia).
    f_equal.
    rewrite (mod_pow2_succ m (Z.of_nat j)) by lia.
    assert (Hp : 0 < 2 ^ Z.of_nat j) by (apply Z.pow_pos_nonneg; lia).
    pose proof (Z.mod_pos_bound m (2 ^ Z.of_nat j) Hp) as Hb.
    generalize dependent (2 ^ Z.of_nat j). intros pw Hp Hb.
    destruct (Z.odd (m / pw));
      destruct (Z.eqb_spec (m mod pw) 0) as [E|E]; cbn [negb orb];
      symmetry.
    + apply negb_true_iff, Z.eqb_neq. lia.
    + apply negb_true_iff, Z.eqb_neq. lia.
    + apply negb_false_iff, Z.eqb_eq. lia.
    + apply negb_true_iff, Z.eqb_neq. lia.
Qed.

Lemma shr_spec (m : BinNums.Z) (e : BinNums.Z) (k : positive) :
  0 <= m ->
  shr (Build_shr_record m false false) e (Zpos k)
  = (shifted m (Pos.to_nat k - 1), e + Zpos k).
Proof.
  intros Hm. unfold shr. rewrite iter_pos_nat.
  destruct (Pos2Nat.is_succ k) as [j Ej]. rewrite Ej.
  rewrite shr_iter by assumption.
  now replace (S j - 1)%nat with j by lia.
Qed.

Lemma rnd_half_0 (v : BinNums.Z) : rnd_half v 0 = v.
Proof.
  unfold rnd_half. rewrite Z.pow_0_r, Z.div_1_r, Z.mod_1_r. reflexivity.
Qed.

Lemma rnd_half_bounds (v n : BinNums.Z) :
  v / 2 ^ n <= rnd_half v n <= v / 2 ^ n + 1.
Proof.
  unfold rnd_half.
  destruct (_ <? _); [lia|]. destruct (_ <? _); [lia|].
  destruct (Z.even _); lia.
Qed.

Lemma rnd_half_scale (v n j : BinNums.Z) :
  0 <= n -> 0 <= j -> rnd_half (v * 2 ^ j) (n + j) = rnd_half v n.
Proof.
  intros Hn Hj. unfold rnd_half.
  assert (Hp : 0 < 2 ^ n) by (apply Z.pow_pos_nonneg; lia).
  assert (Hq : 0 < 2 ^ j) by (apply Z.pow_pos_nonneg; lia).
  rewrite Z.pow_add_r by lia.
  rewrite Z.div_mul_cancel_r, Z.mul_mod_distr_r by lia.
  pose proof (Z.mod_pos_bound v (2 ^ n) Hp) as Hb.
  generalize dependent (v mod 2 ^ n). intros a Ha.
  generalize dependent (v / 2 ^ n). intros q.
  generalize dependent (2 ^ n). generalize dependent (2 ^ j).
  intros J HJ P HP Ha.
  assert (E1 : (2 * (a * J) <? P * J) = (2 * a <? P)).
  { destruct (Z.ltb_spec (2 * a) P), (Z.ltb_spec (2 * (a * J)) (P * J));
      try reflexivity; nia. }
  assert (E2 : (P * J <? 2 * (a * J)) = (P <? 2 * a)).
  { destruct (Z.ltb_spec P (2 * a)), (Z.ltb_spec (P * J) (2 * (a * J)));
      try reflexivity; nia. }
  now rewrite E1, E2.
Qed.

Lemma round_shifted (m : BinNums.Z) (j : nat) :
  0 <= m ->
  round_nearest_even (shr_m (shifted m j)) (loc_of_shr_record (shifted m j))
  = rnd_half m (Z.of_nat j + 1).
Proof.
  intros Hm. unfold shifted, rnd_half. cbn [shr_m loc_of_shr_record].
  rewrite mod_pow2_succ by lia.
  rewrite Z.pow_add_r, Z.pow_1_r by lia.
  assert (Hp : 0 < 2 ^ Z.of_nat j) by (apply Z.pow_pos_nonneg; lia).
  pose proof (Z.mod_pos_bound m (2 ^ Z.of_nat j) Hp) as Hb.
  generalize dependent (m mod 2 ^ Z.of_nat j). intros a Ha.
  generalize dependent (m / (2 ^ Z.of_nat j * 2)). intros q.
  generalize dependent (Z.odd (m / 2 ^ Z.of_nat j)). intros b.
  generalize dependent (2 ^ Z.of_nat j). intros P HP Ha.
  destruct b; destruct (Z.eqb_spec a 0) as [E|E];
    cbn [negb round_nearest_even];
    destruct (Z.ltb_spec (2 * (a + P * 1)) (P * 2));
    destruct (Z.ltb_spec (P * 2) (2 * (a + P * 1)));
    destruct (Z.ltb_spec (2 * (a + P * 0)) (P * 2));
    destruct (Z.ltb_spec (P * 2) (2 * (a + P * 0)));
    try reflexivity; lia.
Qed.

Lemma log2_scaled (m : positive) (j : BinNums.Z) :
  0 <= j -> Z.log2 (Zpos m * 2 ^ j) = Z.log2 (Zpos m) + j.
Proof.
  intros Hj. rewrite Z.log2_mul_pow2 by lia. lia.
Qed.

Lemma binary_round_aux_spec (s : bool) (m : positive) (e : BinNums.Z) :
  -1074 <= e ->
  e <= fexp prec emax (Zpos (digits2_pos m) + e) ->
  binary_round_aux prec emax s (Zpos m) e loc_Exact
  = round_scaled s (Zpos m * 2 ^ (e + 1074)).
Proof.
  intros He Hc. rewrite fexp_eq in Hc.
  pose proof (digits2_pos_bounds m) as Hd.
  unfold round_scaled. rewrite log2_scaled by lia.
  unfold binary_round_aux, shr_fexp. cbn [Zdigits2 shr_record_of_loc].
  rewrite fexp_eq. rewrite digits2_log2 in Hc, Hd |- *.
  set (l := Z.log2 (Zpos m)) in *.
  destruct (Z.max (l + 1 + e - 53) (-1074) - e) as [|k|k] eqn:Ek;
    [| |lia].
  - (* no shift *)
    cbn [shr round_nearest_even shr_m loc_of_shr_record Zdigits2].
    rewrite fexp_eq, digits2_log2. fold l. rewrite Ek.
    cbn [shr shr_m].
    replace (Z.max (l + (e + 1074) + 1 - 53) 0) with (0 + (e + 1074)) by lia.
    change (emax - prec) with 971.
    rewrite rnd_half_scale, rnd_half_0 by lia.
    assert (Hm : Zpos m < 2 ^ 53).
    { apply Z.lt_le_trans with (1 := proj2 Hd).
      apply Z.pow_le_mono_r; lia. }
    destruct (Z.eqb_spec (Zpos m) (2 ^ 53)) as [E|_]; [lia|].
    replace (0 + (e + 1074) - 1074) with e by lia.
    now rewrite Pos2Z.id.
  - (* a shift by [k] *)
    rewrite shr_spec by lia. cbn [fst snd].
    rewrite round_shifted by lia.
    replace (Z.of_nat (Pos.to_nat k - 1) + 1) with (Zpos k) by lia.
    assert (El : l = 52 + Zpos k) by lia.
    replace (Z.max (l + (e + 1074) + 1 - 53) 0)
      with (Zpos k + (e + 1074)) by lia.
    rewrite rnd_half_scale by lia.
    pose proof (rnd_half_bounds (Zpos m) (Zpos k)) as Hr.
    assert (Hq : 2 ^ 52 <= Zpos m / 2 ^ Zpos k < 2 ^ 53).
    { assert (Hp : 0 < 2 ^ Zpos k) by (apply Z.pow_pos_nonneg; lia).
      replace (l + 1 - 1) with (52 + Zpos k) in Hd by lia.
      replace (l + 1) with (53 + Zpos k) in Hd by lia.
      rewrite !Z.pow_add_r in Hd by lia. split.
      - apply Z.div_le_lower_bound; lia.
      - apply Z.div_lt_upper_bound; lia. }
    generalize dependent (rnd_half (Zpos m) (Zpos k)). intros r Hr.
    destruct r as [|r|r]; [lia| |lia].
    cbn [Zdigits2]. rewrite fexp_eq, digits2_log2.
    change (emax - prec) with 971.
    destruct (Z.eqb_spec (Zpos r) (2 ^ 53)) as [E|E].
    + rewrite E. change (Z.log2 (2 ^ 53)) with 53.
      replace (Z.max (53 + 1 + (e + Zpos k) - 53) (-1074) - (e + Zpos k))
        with 1 by lia.
      cbn [shr iter_pos]. rewrite shr_1_spec by lia. cbn [shr_m].
      change (2 ^ 53 / 2) with (2 ^ 52).
      change (2 ^ 52) with (Zpos (Z.to_pos (2 ^ 52))) at 1.
      cbv iota beta.
      replace (Zpos k + (e + 1074) - 1074 + 1) with (e + Zpos k + 1) by lia.
      reflexivity.
    + assert (Elr : Z.log2 (Zpos r) = 52).
      { apply Z.log2_unique; [lia|]. change (Z.succ 52) with 53. lia. }
      rewrite Elr.
      replace (Z.max (52 + 1 + (e + Zpos k) - 53) (-1074) - (e + Zpos k))
        with 0 by lia.
      cbn [shr shr_m].
      replace (Zpos k + (e + 1074) - 1074) with (e + Zpos k) by lia.
      now rewrite Pos2Z.id.
Qed.

Lemma binary_round_spec (s : bool) (m : positive) (e : BinNums.Z) :
  -1074 <= e ->
  binary_round prec emax s m e = round_scaled s (Zpos m * 2 ^ (e + 1074)).
Proof.
  intros He. unfold binary_round. rewrite fexp_eq, digits2_log2.
  remember (Z.max (Z.log2 (Zpos m) + 1 + e - 53) (-1074)) as t eqn:Et.
  assert (Ht : -1074 <= t) by lia.
  destruct (Z.le_gt_cases e t) as [Hle|Hgt].
  - rewrite shl_align_up by assumption.
    apply binary_round_aux_spec; [assumption|].
    rewrite fexp_eq, digits2_log2. lia.
  - rewrite shl_align_down by lia.
    assert (Hp : 0 < Zpos m * 2 ^ (e - t)).
    { apply Z.mul_pos_pos; [lia|]. apply Z.pow_pos_nonneg; lia. }
    rewrite binary_round_aux_spec.
    + rewrite Z2Pos.id by assumption. rewrite <- Z.mul_assoc.
      rewrite <- Z.pow_add_r by lia.
      now replace (e - t + (t + 1074)) with (e + 1074) by lia.
    + assumption.
    + rewrite fexp_eq, digits2_log2, Z2Pos.id by assumption.
      rewrite log2_scaled by lia. lia.
Qed.

Lemma binary_normalize_spec (m e : BinNums.Z) :
  -1074 <= e ->
  binary_normalize prec emax m e false = round_value (m * 2 ^ (e + 1074)).
Proof.
  intros He. unfold round_value.
  assert (Hp : 0 < 2 ^ (e + 1074)) by (apply Z.pow_pos_nonneg; lia).
  destruct m as [|m|m]; cbn [binary_normalize].
  - reflexivity.
  - rewrite binary_round_spec by assumption.
    destruct (Z.eqb_spec (Zpos m * 2 ^ (e + 1074)) 0); [nia|].
    destruct (Z.ltb_spec 0 (Zpos m * 2 ^ (e + 1074))); [reflexivity|nia].
  - rewrite binary_round_spec by assumption.
    destruct (Z.eqb_spec (Zneg m * 2 ^ (e + 1074)) 0); [nia|].
    destruct (Z.ltb_spec 0 (Zneg m * 2 ^ (e + 1074))); [nia|].
    f_equal. rewrite <- Z.mul_opp_l. reflexivity.
Qed.

(** ** Rounding is monotone *)

Lemma rnd_half_mono (v1 v2 n : BinNums.Z) :
  0 <= n -> v1 <= v2 -> rnd_half v1 n <= rnd_half v2 n.
Proof.
  intros Hn Hv. unfold rnd_half.
  assert (Hp : 0 < 2 ^ n) by (apply Z.pow_pos_nonneg; lia).
  pose proof (Z.div_mod v1 (2 ^ n) ltac:(lia)) as E1.
  pose proof (Z.div_mod v2 (2 ^ n) ltac:(lia)) as E2.
  pose proof (Z.mod_pos_bound v1 (2 ^ n) Hp) as B1.
  pose proof (Z.mod_pos_bound v2 (2 ^ n) Hp) as B2.
  pose proof (Z.div_le_mono v1 v2 (2 ^ n) Hp Hv) as Hq.
  generalize dependent (v1 mod 2 ^ n). intros r1 E1 B1.
  generalize dependent (v2 mod 2 ^ n). intros r2 E2 B2.
  generalize dependent (v1 / 2 ^ n). intros q1 E1.
  generalize dependent (v2 / 2 ^ n). intros q2 E2 Hq.
  generalize dependent (2 ^ n). intros P HP E1 B1 E2 B2.
  assert (Hr : q1 < q2 \/ (q1 = q2 /\ r1 <= r2)) by nia.
  destruct (Z.ltb_spec (2 * r1) P), (Z.ltb_spec P (2 * r1)),
    (Z.ltb_spec (2 * r2) P), (Z.ltb_spec P (2 * r2));
    try lia;
    destruct (Z.even q1) eqn:Ev1, (Z.even q2) eqn:Ev2; try lia;
    destruct Hr as [Hr|[Hr _]]; try lia; subst; congruence.
Qed.

Lemma round_scaled_pack (s : bool) (v : BinNums.Z) :
  round_scaled s v = pack s (normal_form v).
Proof.
  unfold round_scaled, normal_form, pack.
  now destruct (_ =? _).
Qed.

Lemma pack_mono (a b : BinNums.Z * BinNums.Z) :
  below a b ->
  SFleb (pack false a) (pack false b) = true
  /\ SFleb (pack true b) (pack true a) = true.
Proof.
  destruct a as [m1 e1], b as [m2 e2]. unfold below, pack. cbn [fst snd].
  intros (H1 & H2 & H).
  destruct (Z.leb_spec e1 971), (Z.leb_spec e2 971);
    try (split; reflexivity); try lia.
  unfold SFleb, SFcompare.
  destruct H as [H|[-> H]].
  - rewrite (proj2 (Z.compare_lt_iff e1 e2) H).
    rewrite (proj2 (Z.compare_gt_iff e2 e1) H). now split.
  - rewrite Z.compare_refl.
    change (Pos.compare_cont Eq) with Pos.compare.
    rewrite <- (Z2Pos.id m1) in H by assumption.
    rewrite <- (Z2Pos.id m2) in H by assumption.
    change (Zpos (Z.to_pos m1) <= Zpos (Z.to_pos m2)) with
      (Pos.le (Z.to_pos m1) (Z.to_pos m2)) in H.
    unfold Pos.le in H. split.
    + now destruct (Pos.compare (Z.to_pos m1) (Z.to_pos m2)).
    + rewrite (Pos.compare_antisym (Z.to_pos m1) (Z.to_pos m2)).
      now destruct (Pos.compare (Z.to_pos m1) (Z.to_pos m2)).
Qed.

Lemma quotient_bounds (v : BinNums.Z) :
  0 < v ->
  let n := Z.max (Z.log2 v + 1 - 53) 0 in
  0 < v / 2 ^ n < 2 ^ 53 /\ (0 < n -> 2 ^ 52 <= v / 2 ^ n).
Proof.
  intros Hv n. pose proof (Z.log2_spec v Hv) as Hl.
  pose proof (Z.log2_nonneg v) as Hl0.
  assert (Hp : 0 < 2 ^ n) by (apply Z.pow_pos_nonneg; lia).
  destruct (Z.le_gt_cases (Z.log2 v + 1) 53) as [Hs|Hs].
  - assert (En : n = 0) by lia. rewrite En.
    rewrite Z.pow_0_r, Z.div_1_r. split; [|lia]. split; [lia|].
    apply Z.lt_le_trans with (1 := proj2 Hl). apply Z.pow_le_mono_r; lia.
  - assert (En : Z.log2 v = 52 + n) by lia.
    rewrite En in Hl. replace (Z.succ (52 + n)) with (53 + n) in Hl by lia.
    rewrite !Z.pow_add_r in Hl by lia.
    assert (Hq : 2 ^ 52 <= v / 2 ^ n < 2 ^ 53).
    { split.
      - apply Z.div_le_lower_bound; lia.
      - apply Z.div_lt_upper_bound; lia. }
    split; [|intros _; lia]. split; [|lia].
    apply Z.lt_le_trans with (2 := proj1 Hq). reflexivity.
Qed.

Lemma normal_form_mono (v1 v2 : BinNums.Z) :
  0 < v1 -> v1 <= v2 -> below (normal_form v1) (normal_form v2).
Proof.
  intros H1 H12. unfold below, normal_form.
  pose proof (quotient_bounds v1 H1) as Q1.
  pose proof (quotient_bounds v2 ltac:(lia)) as Q2.
  cbv zeta in Q1, Q2.
  pose proof (Z.log2_le_mono v1 v2 H12) as Hl.
  set (n1 := Z.max (Z.log2 v1 + 1 - 53) 0) in *.
  set (n2 := Z.max (Z.log2 v2 + 1 - 53) 0) in *.
  assert (Hn : n1 <= n2) by lia.
  pose proof (rnd_half_bounds v1 n1) as B1.
  pose proof (rnd_half_bounds v2 n2) as B2.
  assert (Hm : n1 = n2 -> rnd_half v1 n1 <= rnd_half v2 n2).
  { intros E. rewrite E. apply rnd_half_mono; lia. }
  generalize dependent (rnd_half v1 n1). intros m1 B1 Hm.
  generalize dependent (rnd_half v2 n2). intros m2 B2 Hm.
  generalize dependent (v1 / 2 ^ n1). intros q1 Q1 B1.
  generalize dependent (v2 / 2 ^ n2). intros q2 Q2 B2.
  assert (P52 : 0 < 2 ^ 52 < 2 ^ 53) by (split; reflexivity).
  generalize dependent (2 ^ 52). generalize dependent (2 ^ 53).
  intros p53 p52 Q1 Q2 P52.
  destruct (Z.eqb_spec m1 p53), (Z.eqb_spec m2 p53); cbn [fst snd]; lia.
Qed.

Lemma round_scaled_mono (v1 v2 : BinNums.Z) :
  0 < v1 -> v1 <= v2 ->
  SFleb (round_scaled false v1) (round_scaled false v2) = true
  /\ SFleb (round_scaled true v2) (round_scaled true v1) = true.
Proof.
  intros H1 H12. rewrite !round_scaled_pack.
  apply pack_mono, normal_form_mono; assumption.
Qed.

Lemma round_scaled_cases (s : bool) (v : BinNums.Z) :
  (exists m e, round_scaled s v = S754_finite s m e)
  \/ round_scaled s v = S754_infinity s.
Proof.
  unfold round_scaled.
  destruct (_ =? _); destruct (_ <=? _); eauto.
Qed.

Lemma round_value_mono (v1 v2 : BinNums.Z) :
  v1 <= v2 -> SFleb (round_value v1) (round_value v2) = true.
Proof.
  intros H. unfold round_value.
  destruct (Z.eqb_spec v1 0) as [E1|E1], (Z.eqb_spec v2 0) as [E2|E2];
    destruct (Z.ltb_spec 0 v1) as [L1|L1], (Z.ltb_spec 0 v2) as [L2|L2];
    try lia; try reflexivity.
  - destruct (round_scaled_cases false v2) as [(m & ex & ->)| ->];
      reflexivity.
  - destruct (round_scaled_cases true (- v1)) as [(m & ex & ->)| ->];
      reflexivity.
  - now apply round_scaled_mono.
  - destruct (round_scaled_cases true (- v1)) as [(m1 & ex1 & ->)| ->];
      destruct (round_scaled_cases false v2) as [(m2 & ex2 & ->)| ->];
      reflexivity.
  - apply round_scaled_mono; lia.
Qed.

(** ** The order of floats is the order of their values *)

Lemma bounded_spec (m : positive) (e : BinNums.Z) :
  bounded prec emax m e = true ->
  -1074 <= e <= 971
  /\ Z.log2 (Zpos m) <= 52
  /\ (-1074 < e -> Z.log2 (Zpos m) = 52).
Proof.
  unfold bounded, canonical_mantissa.
  rewrite fexp_eq, digits2_log2, andb_true_iff, Z.eqb_eq, Z.leb_le.
  change (emax - prec) with 971. lia.
Qed.

Lemma value_lt (m1 m2 : positive) (e1 e2 : BinNums.Z) :
  bounded prec emax m1 e1 = true -> bounded prec emax m2 e2 = true ->
  e1 < e2 ->
  Zpos m1 * 2 ^ (e1 + 1074) < Zpos m2 * 2 ^ (e2 + 1074).
Proof.
  intros B1 B2 He.
  apply bounded_spec in B1, B2.
  destruct B1 as (He1 & Hl1 & _), B2 as (He2 & _ & Hl2).
  specialize (Hl2 ltac:(lia)).
  replace (e2 + 1074) with (e1 + 1074 + (e2 - e1)) by lia.
  rewrite (Z.pow_add_r 2 (e1 + 1074) (e2 - e1)) by lia.
  assert (HA : 0 < 2 ^ (e1 + 1074)) by (apply Z.pow_pos_nonneg; lia).
  assert (HB : 2 ^ 1 <= 2 ^ (e2 - e1)) by (apply Z.pow_le_mono_r; lia).
  pose proof (Z.log2_spec (Zpos m1) ltac:(lia)) as [_ U1].
  pose proof (Z.log2_spec (Zpos m2) ltac:(lia)) as [L2 _].
  rewrite Hl2 in L2.
  assert (U : Zpos m1 < 2 ^ 53).
  { apply Z.lt_le_trans with (1 := U1). apply Z.pow_le_mono_r; lia. }
  clear U1.
  change (2 ^ 1) with 2 in HB.
  change (2 ^ 53) with (2 * 2 ^ 52) in U.
  generalize dependent (2 ^ 52). generalize dependent (2 ^ (e1 + 1074)).
  generalize dependent (2 ^ (e2 - e1)). intros B HB A HA p52 L2 U.
  apply Z.lt_le_trans with (2 * p52 * A); [nia|].
  apply Z.le_trans with (Zpos m2 * (A * 2)); nia.
Qed.

Lemma SFleb_value (x y : spec_float) :
  valid_binary prec emax x = true -> valid_binary prec emax y = true ->
  is_finite_SF x = true -> is_finite_SF y = true ->
  SFleb x y = true -> scaled_value x <= scaled_value y.
Proof.
  destruct x as [s1|s1| |s1 m1 e1], y as [s2|s2| |s2 m2 e2];
    cbn [valid_binary is_finite_SF]; intros V1 V2 F1 F2;
    try discriminate F1; try discriminate F2;
    unfold SFleb, SFcompare, scaled_value.
  - intros _. reflexivity.
  - assert (0 < 2 ^ (e2 + 1074))
      by (apply Z.pow_pos_nonneg; apply bounded_spec in V2; lia).
    destruct s2; [discriminate|]. cbn [cond_Zopp]. nia.
  - assert (0 < 2 ^ (e1 + 1074))
      by (apply Z.pow_pos_nonneg; apply bounded_spec in V1; lia).
    destruct s1; [|discriminate]. cbn [cond_Zopp]. nia.
  - assert (P1 : 0 < 2 ^ (e1 + 1074))
      by (apply Z.pow_pos_nonneg; apply bounded_spec in V1; lia).
    assert (P2 : 0 < 2 ^ (e2 + 1074))
      by (apply Z.pow_pos_nonneg; apply bounded_spec in V2; lia).
    change (Pos.compare_cont Eq) with Pos.compare.
    destruct s1, s2; cbn [cond_Zopp]; try discriminate.
    + destruct (Z.compare_spec e1 e2) as [E|E|E]; try discriminate.
      * subst e2. rewrite Pos.compare_antisym.
        destruct (Pos.compare_spec m2 m1) as [Em|Em|Em];
          try discriminate; intros _.
        -- subst. lia.
        -- assert (Zpos m2 < Zpos m1) by exact Em. nia.
      * intros _. pose proof (value_lt m2 m1 e2 e1 V2 V1 E). lia.
    + intros _. nia.
    + destruct (Z.compare_spec e1 e2) as [E|E|E]; try discriminate.
      * subst e2.
        destruct (Pos.compare_spec m1 m2) as [Em|Em|Em];
          try discriminate; intros _.
        -- subst. lia.
        -- assert (Zpos m1 < Zpos m2) by exact Em. nia.
      * intros _. pose proof (value_lt m1 m2 e1 e2 V1 V2 E). lia.
Qed.

(** ** Addition *)

(** The sum of two finite floats is their exact sum, rounded. *)

Lemma SFadd_finite (sx sy : bool) (mx my : positive) (ex ey : BinNums.Z) :
  -1074 <= ex -> -1074 <= ey ->
  SFadd prec emax (S754_finite sx mx ex) (S754_finite sy my ey)
  = round_value (scaled_value (S754_finite sx mx ex)
                 + scaled_value (S754_finite sy my ey)).
Proof.
  intros Hx Hy. cbn [SFadd scaled_value].
  rewrite !shl_align_down by lia. cbn [fst].
  assert (Px : 0 < 2 ^ (ex - Z.min ex ey)) by (apply Z.pow_pos_nonneg; lia).
  assert (Py : 0 < 2 ^ (ey - Z.min ex ey)) by (apply Z.pow_pos_nonneg; lia).
  rewrite !Z2Pos.id by (apply Z.mul_pos_pos; lia).
  rewrite binary_normalize_spec by lia. f_equal.
  replace (ex + 1074) with (ex - Z.min ex ey + (Z.min ex ey + 1074)) by lia.
  replace (ey + 1074) with (ey - Z.min ex ey + (Z.min ex ey + 1074)) by lia.
  rewrite (Z.pow_add_r 2 (ex - Z.min ex ey) (Z.min ex ey + 1074)),
    (Z.pow_add_r 2 (ey - Z.min ex ey) (Z.min ex ey + 1074)) by lia.
  destruct sx, sy; cbn [cond_Zopp]; ring.
Qed.

Lemma Prim2SF_two : Prim2SF 2 = two.
Proof. reflexivity. Qed.

Lemma SFadd_two (x : spec_float) :
  valid_binary prec emax x = true -> is_finite_SF x = true ->
  SFadd prec emax x two = round_value (scaled_value x + scaled_value two).
Proof.
  destruct x as [s|s| |s m e]; cbn [valid_binary is_finite_SF];
    intros V F; try discriminate.
  - vm_compute. reflexivity.
  - apply bounded_spec in V. apply SFadd_finite; lia.
Qed.

Lemma SFadd_two_number (x : spec_float) :
  valid_binary prec emax x = true -> x <> S754_nan ->
  SFadd prec emax x two <> S754_nan.
Proof.
  intros V Hn. destruct (is_finite_SF x) eqn:F.
  - rewrite SFadd_two by assumption. unfold round_value.
    destruct (_ =? _); [discriminate|].
    destruct (_ <? _);
      match goal with
      | |- round_scaled ?s ?v <> _ =>
          destruct (round_scaled_cases s v) as [(m' & e' & ->)| ->]
      end; discriminate.
  - destruct x as [s|s| |s m e]; try discriminate F; [|now destruct Hn].
    cbn. discriminate.
Qed.

Lemma SFleb_inf (x y : spec_float) :
  x <> S754_nan -> y <> S754_nan ->
  SFleb (S754_infinity true) y = true
  /\ SFleb x (S754_infinity false) = true.
Proof.
  intros Hx Hy. split.
  - destruct y as [s|[]| |s m e]; try reflexivity. now destruct Hy.
  - destruct x as [s|[]| |s m e]; try reflexivity. now destruct Hx.
Qed.

(** Adding 2 preserves the order: rounding is monotone. *)

Lemma SFadd_two_mono (x y : spec_float) :
  valid_binary prec emax x = true -> valid_binary prec emax y = true ->
  SFleb x y = true ->
  SFleb (SFadd prec emax x two) (SFadd prec emax y two) = true.
Proof.
  intros Vx Vy H.
  assert (Hx : x <> S754_nan) by (intros ->; discriminate H).
  assert (Hy : y <> S754_nan)
    by (intros ->; destruct x; discriminate H).
  pose proof (SFadd_two_number x Vx Hx) as Nx.
  pose proof (SFadd_two_number y Vy Hy) as Ny.
  destruct (is_finite_SF x) eqn:Fx, (is_finite_SF y) eqn:Fy.
  - rewrite !SFadd_two by assumption.
    apply round_value_mono.
    pose proof (SFleb_value x y Vx Vy Fx Fy H). lia.
  - destruct y as [sy|sy| |sy my ey]; try discriminate Fy;
      [|now destruct Hy].
    destruct sy.
    + destruct x as [sx|sx| |sx mx ex]; try discriminate Fx;
        try (destruct sx); discriminate H.
    + change (SFadd prec emax (S754_infinity false) two)
        with (S754_infinity false).
      exact (proj2 (SFleb_inf _ (S754_infinity false) Nx Hy)).
  - destruct x as [sx|sx| |sx mx ex]; try discriminate Fx;
      [|now destruct Hx].
    destruct sx.
    + change (SFadd prec emax (S754_infinity true) two)
        with (S754_infinity true).
      exact (proj1 (SFleb_inf (S754_infinity true) _ Hx Ny)).
    + destruct y as [sy|sy| |sy my ey]; try discriminate Fy;
        try (destruct sy); discriminate H.
  - destruct x as [sx|sx| |sx mx ex]; try discriminate Fx;
      [|now destruct Hx].
    destruct y as [sy|sy| |sy my ey]; try discriminate Fy;
      [|now destruct Hy].
    destruct sx, sy; try discriminate H; reflexivity.
Qed.

End Binary64Facts.

(** Adding 2 to binary64 numbers preserves their order. *)
Lemma add_two_monotone (x y : float) :
  PrimFloat.leb x y = true ->
  PrimFloat.leb (x + 2) (y + 2) = true.
Proof.
  rewrite !leb_spec, !add_spec, Binary64Facts.Prim2SF_two.
  apply Binary64Facts.SFadd_two_mono; apply Prim2SF_valid.
Qed.

(** [x + 2] is a number exactly when [x] is. *)
Lemma add_two_is_nan (x : float) :
  PrimFloat.is_nan (x + 2) = PrimFloat.is_nan x.
Proof.
  destruct (PrimFloat.is_nan x) eqn:E.
  - destruct (PrimFloat.is_nan (x + 2)) eqn:E2; [reflexivity|].
    apply is_nan_spec in E2. rewrite add_spec in E2.
    assert (En : Prim2SF x = SpecFloat.S754_nan).
    { destruct (Prim2SF x) eqn:Ex; try reflexivity;
        assert (Hn : PrimFloat.is_nan x = false)
          by (apply is_nan_spec; rewrite Ex; discriminate);
        congruence. }
    rewrite En in E2. now destruct E2.
  - apply leb_self. apply add_two_monotone. now apply leb_self.
Qed.

(** ** The length of the flag *)

(** C2. In binary64, the length of the flag is the larger of the widths of
    the two outlines, as the engine reports them, plus 2: the width of the
    top outline unless that of the bottom outline is strictly larger.  The
    box united into a part that is returned has this length.  When the two
    widths are numbers the larger one is no smaller than either.  The
    length is no smaller than the larger width plus 2 exactly when that
    width is a number, and it does not decrease when the larger width
    grows, whatever the engine and the spec: the rounded sum is monotone. *)
Theorem flag_length_from_text_width
    (k k' : Kernel float) (s s' : BushingSpec float) :
  let outline_top :=
    SketchTranslate (lit 0, lit 0.6)
      (Text (fst (label_layout (text_top s) (text_bottom s)))
            (text_font_size s) (CENTER, MIN)) in
  let outline_bottom :=
    SketchTranslate (lit 0, lit (-0.6))
      (Text (snd (label_layout (text_top s) (text_bottom s)))
            (text_font_size s) (CENTER, MAX)) in
  let w_top := X (bb_size (bounding_box k outline_top)) in
  let w_bottom := X (bb_size (bounding_box k outline_bottom)) in
  max_text_width k s = (if PrimFloat.ltb w_top w_bottom then w_bottom else w_top)
  /\ computed_flag_length k s = (max_text_width k s + 2)%float
  /\ (forall p,
         make_bushing k s = Ok p ->
         nth_error (snd (history p)) 2
         = Some (Union
                   (Translate
                      ((flag_stem_length_radial s + bushing_od s / 2)%float,
                       0%float, 0%float)
                      (Box (max_text_width k s + 2)%float (flag_thickness s)
                           (flag_height s) (MIN, CENTER, MIN)))))
  /\ (max_text_width k s = w_top \/ max_text_width k s = w_bottom)
  /\ (PrimFloat.is_nan w_top = false -> PrimFloat.is_nan w_bottom = false ->
      PrimFloat.leb w_top (max_text_width k s) = true
      /\ PrimFloat.leb w_bottom (max_text_width k s) = true)
  /\ (PrimFloat.leb (max_text_width k s + 2) (computed_flag_length k s) = true
      <-> PrimFloat.is_nan (max_text_width k s) = false)
  /\ (PrimFloat.leb (max_text_width k s) (max_text_width k' s') = true ->
      PrimFloat.leb (computed_flag_length k s) (computed_flag_length k' s')
      = true).
Proof.
  intros outline_top outline_bottom w_top w_bottom.
  assert (Em : max_text_width k s = pymax w_top w_bottom) by reflexivity.
  assert (El : forall k0 s0,
             computed_flag_length k0 s0 = (max_text_width k0 s0 + 2)%float)
    by reflexivity.
  destruct (pymax_binary64 w_top w_bottom) as (Hone & Hle & _).
  split; [reflexivity|]. split; [apply El|].
  split.
  { intros p E. apply make_bushing_ok in E. destruct E as [-> _].
    reflexivity. }
  rewrite Em. split; [exact Hone|]. split; [exact Hle|].
  rewrite <- Em, !El. split.
  - rewrite leb_self, add_two_is_nan. tauto.
  - apply add_two_monotone.
Qed.

(** The flag of the labelled sample, with the engine of reference: the
    wider outline is that of "M3 to", five characters of width 3 each. *)
Example flag_length_binary64 :
  max_text_width Reference64.kernel (Sample.spec_of 10%float "M3" "8mm")
  = 15%float
  /\ computed_flag_length Reference64.kernel
       (Sample.spec_of 10%float "M3" "8mm") = 17%float.
Proof. split; reflexivity. Qed.

(** * The statements at the reference engines *)

(** ** Running the model *)

Example run_labelled_exact :
  fst (make_many_bushings Reference.kernel [Sample.labelled; Sample.labelled])
  = Ok (Translate (0, 1 * 6.4 + 5, 0)%Q
          (bushing_part Reference.kernel (Sample.spec_of 10%Q "M3" "8mm"))).
Proof. reflexivity. Qed.

Example run_exports_in_order :
  map (fun e => match e with
                | ExportStl _ name => Some name
                | _ => None
                end)
      (snd (make_many_bushings Reference.kernel
              [Sample.labelled; Sample.length_only]))
  = [None;
     None; Some "bushing_0 - M3 to 8mm.stl"%string; None;
     None; Some "bushing_1.stl"%string; None].
Proof. reflexivity. Qed.

Example run_without_length :
  make_many_bushings Reference.kernel [Sample.labelled; Sample.no_overrides]
  = (Err (TypeError
       "BushingSpec.__init__() missing 1 required keyword-only argument: 'bushing_length'"),
     Mkdir :: snd (loop_body Reference.kernel 0 Sample.labelled)).
Proof. reflexivity. Qed.

Example run_with_unknown_key :
  make_many_bushings Reference.kernel [Sample.with_colour]
  = (Err (TypeError
       "BushingSpec.__init__() got an unexpected keyword argument 'colour'"),
     [Mkdir]).
Proof. reflexivity. Qed.

Example run_empty_list :
  make_many_bushings Reference.kernel []
  = (Err (UnboundLocalError "part"), [Mkdir]).
Proof. reflexivity. Qed.

(** With an engine that does not take the outline of an empty text for a
    sketch, the build with the default labels stops at the assertion of
    the front-side loop, in its second iteration. *)
Example default_labels_fail_the_assertion :
  make_bushing Reference.strict_kernel
    (Sample.spec_of 10%Q EmptyString EmptyString)
  = Err (AssertionError [])
  /\ make_many_bushings Reference.strict_kernel [Sample.length_only]
     = (Err (AssertionError []), [Mkdir]).
Proof. split; reflexivity. Qed.

(** A label with a slash: the part is built and shown, and the export
    raises. *)
Example slash_in_a_label :
  exists part,
    make_many_bushings Reference.strict_kernel [Sample.slashed]
    = (Err (Raised "FileNotFoundError"), [Mkdir; Show part]).
Proof. eexists. reflexivity. Qed.

Example wide_bore_rejected_binary64 :
  BushingSpec_init (given (Sample.wide_bore (num:=float)))
  = Err (AssertionError
           [Lit "OD "; Val (lit 6.4); Lit " < ID "; Val 8%float]).
Proof. reflexivity. Qed.

Example stem_position_binary64 :
  flag_stem (Sample.spec_of 10%float "M3" "8mm")
  = Translate (0, 0, 5)%float
      (Rotate AxisY 90%float
         (Cone (fdiv (lit 6.4) 2%float) (fdiv (lit 2.8) 2%float)
               (fadd 4%float (fdiv (lit 6.4) 2%float))
               (CENTER, CENTER, MIN))).
Proof. reflexivity. Qed.

(** The part of the labelled sample, built in binary64. *)
Example build_binary64 :
  make_bushing Reference64.kernel (Sample.spec_of 10%float "M3" "8mm")
  = Ok (bushing_part Reference64.kernel (Sample.spec_of 10%float "M3" "8mm")).
Proof. reflexivity. Qed.

(** [flag_stem_od] decides whether a spec is accepted. *)
Example stem_od_is_validated :
  BushingSpec_init (given (Sample.spec_with 4 15%Q 3.5%Q))
  = Ok (Sample.spec_with 4 15%Q 3.5%Q)
  /\ BushingSpec_init (given (Sample.spec_with 4 15%Q 7%Q))
     = Err (AssertionError
              [Lit "Flag stem OD "; Val 7%Q; Lit " > ";
               Lit "Bushing OD "; Val 6.4%Q]).
Proof. split; reflexivity. Qed.

(** A length that is not a number is accepted. *)
Example nan_length_accepted :
  BushingSpec_init (only_length PrimFloat.nan)
  = Ok (Sample.spec_of PrimFloat.nan EmptyString EmptyString).
Proof. reflexivity. Qed.

(** ** Instances of the conditional statements *)

Lemma empty_labels_instance :
  nth_error
    (snd (history (bushing_part Reference.kernel
                     (Sample.spec_of 10%Q EmptyString EmptyString)))) 5
  = Some (Union
            (Rotate AxisZ (lit 180)
               (Extrude
                  (OnPlane PlaneXZ
                     (SketchTranslate
                        (fneg (X (center Reference.kernel
                                    (flag_body_box Reference.kernel
                                       (Sample.spec_of 10%Q EmptyString
                                          EmptyString)))),
                         Z (center Reference.kernel
                              (flag_body_box Reference.kernel
                                 (Sample.spec_of 10%Q EmptyString
                                    EmptyString))))
                        (SketchTranslate (lit 0, lit 0.6)
                           (Text " to" 5%Q (CENTER, MIN)))))
                  (fadd 1%Q (fdiv 2.8%Q (lit 2)))))).
Proof.
  pose proof (empty_labels_carry_connector Reference.kernel
                (Sample.spec_of 10%Q EmptyString EmptyString)
                eq_refl eq_refl) as H.
  cbv zeta in H. destruct H as (_ & _ & _ & H & _).
  assert (E : make_bushing Reference.kernel
                (Sample.spec_of 10%Q EmptyString EmptyString)
              = Ok (bushing_part Reference.kernel
                      (Sample.spec_of 10%Q EmptyString EmptyString)))
    by reflexivity.
  destruct (H _ E) as (_ & _ & H5 & _). exact H5.
Defined.

Lemma unread_fields_instance :
  make_bushing Reference.kernel (Sample.spec_with 4 15%Q 3.5%Q)
  = make_bushing Reference.kernel (Sample.spec_with 1 99%Q 2%Q).
Proof.
  apply (unread_fields_do_not_matter Reference.kernel
           (s1 := Sample.spec_with 4 15%Q 3.5%Q)
           (s2 := Sample.spec_with 1 99%Q 2%Q)).
  repeat split.
Defined.

Lemma outlines_instance :
  (outline_gap Reference.kernel (Sample.spec_of 10%Q "M3" "8mm") == 1.2)%Q.
Proof.
  apply (@outlines_straddle_seam Reference.kernel
           (Sample.spec_of 10%Q "M3" "8mm") reference_vertical_placement).
Defined.

(** ** The two outlines are not 0.6 apart *)

(** With the labels "M3" and "8mm" the lower edge of the top outline is at
    0.6 and the upper edge of the bottom outline at -0.6: the distance
    between them is 1.2, not 0.6. *)
Lemma outlines_are_not_0_6_apart :
  (top_outline_lower_edge Reference.kernel (Sample.spec_of 10%Q "M3" "8mm")
   == 0.6)%Q
  /\ (bottom_outline_upper_edge Reference.kernel
        (Sample.spec_of 10%Q "M3" "8mm") == -0.6)%Q
  /\ (outline_gap Reference.kernel (Sample.spec_of 10%Q "M3" "8mm") == 1.2)%Q
  /\ ~ (outline_gap Reference.kernel (Sample.spec_of 10%Q "M3" "8mm")
        == 0.6)%Q.
Proof.
  repeat split. intros E. vm_compute in E. discriminate E.
Qed.

Lemma successful_run_instance :
  exported_names
    (snd (make_many_bushings Reference.kernel
            [Sample.labelled; Sample.length_only]))
  = names_from 0 [Sample.labelled; Sample.length_only].
Proof.
  apply (successful_run_exports
           Reference.kernel [Sample.labelled; Sample.length_only]
           (p := placed Reference.kernel 1
                   (Sample.spec_of 10%Q EmptyString EmptyString))
           (tr := snd (make_many_bushings Reference.kernel
                         [Sample.labelled; Sample.length_only]))).
  reflexivity.
Defined.

Lemma last_part_instance :
  exists spec,
    BushingSpec_init Sample.length_only = Ok spec
    /\ placed Reference.kernel 1 (Sample.spec_of 10%Q EmptyString EmptyString)
       = placed Reference.kernel (List.length [Sample.labelled (num:=Q)]) spec.
Proof.
  apply (run_returns_last_part
           Reference.kernel [Sample.labelled] Sample.length_only
           (tr := snd (make_many_bushings Reference.kernel
                         [Sample.labelled; Sample.length_only]))).
  reflexivity.
Defined.

Lemma first_failure_instance :
  make_many_bushings Reference.strict_kernel
    ([Sample.labelled] ++ Sample.slashed :: [Sample.length_only])
  = (Err (Raised "FileNotFoundError"),
     snd (make_many_bushings Reference.strict_kernel
            [Sample.labelled; Sample.slashed])).
Proof.
  assert (E : make_many_bushings Reference.strict_kernel
                [Sample.labelled; Sample.slashed; Sample.labelled]
              = (Err (Raised "FileNotFoundError"),
                 snd (make_many_bushings Reference.strict_kernel
                        [Sample.labelled; Sample.slashed])))
    by reflexivity.
  destruct (run_stops_at_first_failure Reference.strict_kernel _ E)
    as [(what & [Hr | [_ Hm]] & _)
       | [(_ & _ & Hnil & _)
         | (_ & _ & l1 & kw & l2 & trb & Hl & Hok & Hnot & _ & _ & Hrest)]].
  - discriminate Hr.
  - discriminate Hm.
  - discriminate Hnil.
  - destruct l1 as [|a [|b l1]]; try discriminate Hl.
    + exfalso. injection Hl as <- _. apply Hnot.
      exists (Sample.spec_of 10%Q "M3" "8mm"). repeat split.
    + injection Hl as <- <- _. exact (Hrest [Sample.length_only]).
    + exfalso. injection Hl as <- <- _.
      destruct Hok as (_ & (spec & Einit & _ & _ & _ & _ & Hexp) & _).
      injection Einit as <-. discriminate Hexp.
Defined.

Lemma validation_instance :
  post_init (Sample.spec_of (-10)%Q "M3" "8mm")
  = post_init (Sample.spec_with 1 0%Q 3.5%Q).
Proof.
  apply (validation_reads_three_fields
           (Sample.spec_of (-10)%Q "M3" "8mm") (Sample.spec_with 1 0%Q 3.5%Q));
    reflexivity.
Defined.

Lemma nan_instance :
  PrimFloat.is_nan (bushing_id (Sample.spec_of 10%float "M3" "8mm")) = false
  /\ PrimFloat.is_nan (bushing_od (Sample.spec_of 10%float "M3" "8mm")) = false
  /\ PrimFloat.is_nan (flag_stem_od (Sample.spec_of 10%float "M3" "8mm"))
     = false.
Proof.
  apply (nan_diameters_are_rejected Sample.labelled). reflexivity.
Defined.
